(** * Image editor: undo/redo history, image model and edit sessions

    A shallow embedding of [history_manager.py], [image_model.py] and the
    edit-session handlers of [app.py], followed by the properties of the
    edit-session engine.

    Conventions.
    - Python [int] is [Z]; a Python list is a [list] whose head is index 0,
      so [append] adds at the right end and [pop()] removes there.
    - A numpy array is the value [ndarray]: its shape and its samples.  No
      function of the program writes into an array after it is built (every
      numpy and OpenCV call used returns a new array), so [copy] is the
      identity on values and holders never observe each other.
    - A method is a computation in the monad [Py.M]: it threads the object's
      fields and either returns a value or raises; the state reached when an
      exception is raised is kept, as in Python.
    - OpenCV is outside the repository: its functions are the fields of the
      class [Cv2]. *)

From Stdlib Require Import ZArith QArith Qround Qminmax List Bool Lia String.
From Stdlib Require Import Floats.SpecFloat.
Import ListNotations.
Close Scope Q_scope.
Open Scope Z_scope.

(** ** Python runtime *)

Module Py.

Inductive exn : Type :=
| AttributeError
| IndexError
| ValueError (msg : string)
| cv2_error.

Inductive outcome (A : Type) : Type :=
| Returned (a : A)
| Raised (e : exn).
Arguments Returned {A} a.
Arguments Raised {A} e.

Definition M (S A : Type) : Type := S -> outcome A * S.

Definition ret {S A} (a : A) : M S A := fun s => (Returned a, s).

Definition raise {S A} (e : exn) : M S A := fun s => (Raised e, s).

Definition bind {S A B} (m : M S A) (k : A -> M S B) : M S B :=
  fun s =>
    match m s with
    | (Returned a, s') => k a s'
    | (Raised e, s') => (Raised e, s')
    end.

Definition gets {S A} (f : S -> A) : M S A := fun s => (Returned (f s), s).

Definition modify {S} (f : S -> S) : M S unit := fun s => (Returned tt, f s).

(** Run a method of a member object inside the method of its owner. *)
Definition zoom {S T A} (proj : S -> T) (upd : T -> S -> S) (m : M T A)
  : M S A :=
  fun s => let (r, t') := m (proj s) in (r, upd t' s).

(** The state a call leaves behind, whether it returned or raised. *)
Definition exec {S A} (m : M S A) (s : S) : S := snd (m s).

(** [list.pop()] and [list.pop(0)]; [None] stands for the [IndexError]
    of an empty list. *)
Definition list_pop {A} (l : list A) : option (A * list A) :=
  match rev l with
  | [] => None
  | x :: r => Some (x, rev r)
  end.

Definition list_pop0 {A} (l : list A) : option (A * list A) :=
  match l with
  | [] => None
  | x :: r => Some (x, r)
  end.

Definition len {A} (l : list A) : Z := Z.of_nat (List.length l).

(** [try: m  except Exception as e: handler(e)]: every exception of the
    embedding is an [Exception]. *)
Definition try_except {S A} (m : M S A) (handler : exn -> M S A) : M S A :=
  fun s =>
    match m s with
    | (Returned a, s') => (Returned a, s')
    | (Raised e, s') => handler e s'
    end.

(** The last [n] elements of a list. *)
Definition last_n {A} (n : nat) (l : list A) : list A :=
  skipn (List.length l - n) l.

End Py.

Import Py.

Declare Scope py_scope.
Delimit Scope py_scope with py.
Notation "x <- m ;; k" := (bind m (fun x => k))
  (at level 61, m at next level, right associativity) : py_scope.
Notation "m ;; k" := (bind m (fun _ => k))
  (at level 61, right associativity) : py_scope.
Open Scope py_scope.

(** ** numpy arrays *)

(** An image array of shape [(height, width, ...)] with its samples in
    row-major order; a [uint8] sample is an integer of [0..255]. *)
Record ndarray : Type := mk_ndarray {
  height : Z;
  width : Z;
  samples : list Z
}.

Definition copy (a : ndarray) : ndarray := a.

(** [x.copy()] where [x] may be [None]. *)
Definition copy_of {S} (x : option ndarray) : M S ndarray :=
  match x with
  | None => raise AttributeError
  | Some a => ret (copy a)
  end.

(** ** history_manager.py *)

Module HistoryManager.

Record t : Type := mk {
  _undo_stack : list ndarray;
  _redo_stack : list ndarray;
  _max_states : Z
}.

Definition set_undo (l : list ndarray) (h : t) : t :=
  mk l (_redo_stack h) (_max_states h).

Definition set_redo (l : list ndarray) (h : t) : t :=
  mk (_undo_stack h) l (_max_states h).

Definition init (max_states : Z) : t := mk [] [] max_states.

(** [HistoryManager()], with the default [max_states=15]. *)
Definition new : t := init 15.

Definition undo_pop0 : M t ndarray :=
  fun h =>
    match list_pop0 (_undo_stack h) with
    | None => (Raised IndexError, h)
    | Some (x, r) => (Returned x, set_undo r h)
    end.

Definition undo_pop : M t ndarray :=
  fun h =>
    match list_pop (_undo_stack h) with
    | None => (Raised IndexError, h)
    | Some (x, r) => (Returned x, set_undo r h)
    end.

Definition redo_pop : M t ndarray :=
  fun h =>
    match list_pop (_redo_stack h) with
    | None => (Raised IndexError, h)
    | Some (x, r) => (Returned x, set_redo r h)
    end.

Definition clear : M t unit :=
  modify (set_undo []) ;;
  modify (set_redo []).

Definition push (img : option ndarray) : M t unit :=
  match img with
  | None => ret tt
  | Some a =>
      modify (fun h => set_undo (_undo_stack h ++ [copy a]) h) ;;
      over <- gets (fun h => len (_undo_stack h) >? _max_states h) ;;
      (if over then (_ <- undo_pop0 ;; ret tt) else ret tt) ;;
      modify (set_redo [])
  end.

Definition can_undo (h : t) : bool := len (_undo_stack h) >? 0.

Definition can_redo (h : t) : bool := len (_redo_stack h) >? 0.

Definition undo (current_img : option ndarray) : M t (option ndarray) :=
  ok <- gets can_undo ;;
  if negb ok then ret None
  else
    c <- copy_of current_img ;;
    modify (fun h => set_redo (_redo_stack h ++ [c]) h) ;;
    x <- undo_pop ;;
    ret (Some x).

Definition redo (current_img : option ndarray) : M t (option ndarray) :=
  ok <- gets can_redo ;;
  if negb ok then ret None
  else
    c <- copy_of current_img ;;
    modify (fun h => set_undo (_undo_stack h ++ [c]) h) ;;
    x <- redo_pop ;;
    ret (Some x).

(** The calls a client can make, and the manager they leave behind. *)
Inductive call : Type :=
| Clear
| Push (img : option ndarray)
| Undo (current_img : option ndarray)
| Redo (current_img : option ndarray).

Definition step (h : t) (c : call) : t :=
  match c with
  | Clear => exec clear h
  | Push img => exec (push img) h
  | Undo cur => exec (undo cur) h
  | Redo cur => exec (redo cur) h
  end.

Definition run (cs : list call) (h : t) : t := fold_left step cs h.

(** The manager a [push] of the image [a] leaves, in closed form. *)
Definition pushed (a : ndarray) (h : t) : t :=
  let l := _undo_stack h ++ [a] in
  mk (if len l >? _max_states h then tl l else l) [] (_max_states h).

(** The number of images held; they only move between the stacks, except
    in [push] and [clear]. *)
Definition total (h : t) : Z := len (_undo_stack h) + len (_redo_stack h).

(** The invariant of a manager built by [HistoryManager()]. *)
Definition bounded (h : t) : Prop :=
  _max_states h = 15 /\ total h <= 15.

(** The invariant of a manager built by [HistoryManager(m)]. *)
Definition bounded_by (m : Z) (h : t) : Prop :=
  _max_states h = m /\ total h <= m.

(** The images of a session in order: the undo stack, the image on
    screen, and the redo stack from its top down. *)
Definition timeline (h : t) (current_img : ndarray) : list ndarray :=
  _undo_stack h ++ [current_img] ++ rev (_redo_stack h).

End HistoryManager.

(** ** Floating point

    Python's [float] is IEEE binary64 and [np.float32] is binary32; both are
    taken from the standard library's executable specification of IEEE
    arithmetic, round to nearest even.  A decimal literal denotes the
    nearest binary64 number, which is what the correctly rounded quotient of
    its numerator and denominator gives. *)

Module Float64.

Definition prec : Z := 53.
Definition emax : Z := 1024.

Definition of_int (z : Z) : spec_float := binary_normalize prec emax z 0 false.
Definition add : spec_float -> spec_float -> spec_float := SFadd prec emax.
Definition mul : spec_float -> spec_float -> spec_float := SFmul prec emax.
Definition div : spec_float -> spec_float -> spec_float := SFdiv prec emax.

(** The literal [n/d] written in decimal, e.g. [lit 8 100] for [0.08]. *)
Definition lit (n d : Z) : spec_float := div (of_int n) (of_int d).

(** Python's [max(a, b)] and [min(a, b)]: the second argument wins only
    when it is strictly better. *)
Definition max (a b : spec_float) : spec_float := if SFltb a b then b else a.
Definition min (a b : spec_float) : spec_float := if SFltb b a then b else a.

(** [np.clip(x, lo, hi)] and [astype(np.uint8)] on one [float64] sample. *)
Definition clip (x lo hi : spec_float) : spec_float :=
  if SFltb x lo then lo else if SFltb hi x then hi else x.

Definition trunc (x : spec_float) : Z :=
  match x with
  | S754_finite s m e =>
      let v := match e with
               | Zneg k => Z.shiftr (Z.pos m) (Z.pos k)
               | _ => Z.shiftl (Z.pos m) e
               end in
      if s then - v else v
  | _ => 0
  end.

Definition to_uint8 (x : spec_float) : Z := trunc x mod 256.

End Float64.

Module Float32.

Definition prec : Z := 24.
Definition emax : Z := 128.

Definition of_int (z : Z) : spec_float := binary_normalize prec emax z 0 false.
Definition add : spec_float -> spec_float -> spec_float := SFadd prec emax.
Definition sub : spec_float -> spec_float -> spec_float := SFsub prec emax.
Definition mul : spec_float -> spec_float -> spec_float := SFmul prec emax.

(** A Python [float] operand of a [float32] array is first rounded to
    [float32]. *)
Definition of_float64 (x : spec_float) : spec_float :=
  match x with
  | S754_finite s m e =>
      binary_normalize prec emax (if s then Z.neg m else Z.pos m) e s
  | _ => x
  end.

(** [np.clip(x, lo, hi)] on one sample. *)
Definition clip (x lo hi : spec_float) : spec_float :=
  if SFltb x lo then lo else if SFltb hi x then hi else x.

(** The integer part of a float, fraction discarded. *)
Definition trunc (x : spec_float) : Z :=
  match x with
  | S754_finite s m e =>
      let v := match e with
               | Zneg k => Z.shiftr (Z.pos m) (Z.pos k)
               | _ => Z.shiftl (Z.pos m) e
               end in
      if s then - v else v
  | _ => 0
  end.

(** [astype(np.uint8)]: a C conversion, which discards the fraction. *)
Definition to_uint8 (x : spec_float) : Z := trunc x mod 256.

End Float32.


Definition int_truediv (a b : Z) : Z := Z.quot a b.

(** ** OpenCV *)

Module cv2.

Inductive ColorConversionCodes : Type :=
| COLOR_BGR2GRAY
| COLOR_GRAY2BGR
| COLOR_BGR2RGB.

Inductive RotateFlags : Type :=
| ROTATE_90_CLOCKWISE
| ROTATE_180
| ROTATE_90_COUNTERCLOCKWISE.

Inductive InterpolationFlags : Type :=
| INTER_AREA.

(** The library functions the editor calls, as pure functions of arrays.
    [resize] returns an array of the requested size [(w, h)]. *)
Class lib : Type := {
  imread : string -> option ndarray;
  cvtColor : ndarray -> ColorConversionCodes -> ndarray;
  GaussianBlur : ndarray -> Z * Z -> Z -> ndarray;
  Canny : ndarray -> Z -> Z -> ndarray;
  rotate : ndarray -> RotateFlags -> ndarray;
  flip : ndarray -> Z -> ndarray;
  resize : ndarray -> Z * Z -> InterpolationFlags -> ndarray;
  resize_shape : forall src w h i, 1 <= w -> 1 <= h ->
    width (resize src (w, h) i) = w /\ height (resize src (w, h) i) = h
}.

(** A library call on an operand that may be [None]. *)
Definition call {S A} (x : option ndarray) (f : ndarray -> A) : M S A :=
  match x with
  | None => raise cv2_error
  | Some a => ret (f a)
  end.

(** [cv2.rotate] and [cv2.flip] on an operand that may be [None]: they
    hand an absent image back as [None] instead of raising. *)
Definition call_through {S} (x : option ndarray) (f : ndarray -> ndarray)
  : M S (option ndarray) :=
  ret (option_map f x).

End cv2.

(** ** image_model.py *)

Module ImageModel.

Record t : Type := mk {
  _original : option ndarray;
  _current : option ndarray;
  _filepath : option string
}.

Definition init : t := mk None None None.

Definition has_image (m : t) : bool :=
  match _current m with
  | Some _ => true
  | None => false
  end.

Definition get_current (m : t) : option ndarray := _current m.

Definition get_filepath (m : t) : option string := _filepath m.

Definition get_dimensions (m : t) : option (Z * Z) :=
  match _current m with
  | None => None
  | Some a => Some (width a, height a)
  end.

Definition set_current (img_bgr : option ndarray) : M t unit :=
  modify (fun m => mk (_original m) img_bgr (_filepath m)).

Definition set_filepath (path : string) : M t unit :=
  modify (fun m => mk (_original m) (_current m) (Some path)).

Definition reset_to_original : M t unit :=
  o <- gets _original ;;
  match o with
  | Some a => modify (fun m => mk (_original m) (Some (copy a)) (_filepath m))
  | None => ret tt
  end.

(** [h, w = self._current.shape[:2]] *)
Definition shape2 (x : option ndarray) : M t (Z * Z) :=
  match x with
  | None => raise AttributeError
  | Some a => ret (height a, width a)
  end.

(** One sample through
    [img = self._current.astype(np.int16)],
    [img = img * float(contrast) + int(brightness)] (a [float64] array),
    [img = np.clip(img, 0, 255).astype(np.uint8)]. *)
Definition abc_sample (brightness : Z) (contrast : spec_float) (p : Z) : Z :=
  let img := Float64.of_int p in
  let img := Float64.add (Float64.mul img contrast)
                         (Float64.of_int brightness) in
  Float64.to_uint8 (Float64.clip img (Float64.of_int 0) (Float64.of_int 255)).

(** [adjust_brightness_contrast(brightness, contrast)], with [brightness]
    after [int(...)] and [contrast] after [float(...)]; the defaults are
    [0] and [1.0]. *)
Definition adjust_brightness_contrast (brightness : Z) (contrast : spec_float)
  : M t ndarray :=
  cur <- gets _current ;;
  match cur with
  | None => raise AttributeError
  | Some a =>
      ret (mk_ndarray (height a) (width a)
             (map (abc_sample brightness contrast) (samples a)))
  end.

Section WithCv2.
Context {cv : cv2.lib}.

Definition load (path : string) : M t unit :=
  match cv2.imread path with
  | None => raise (ValueError "Unsupported file or cannot read image.")
  | Some img =>
      modify (fun m => mk (_original m) (_current m) (Some path)) ;;
      modify (fun m => mk (Some (copy img)) (_current m) (_filepath m)) ;;
      modify (fun m => mk (_original m) (Some (copy img)) (_filepath m))
  end.

Definition to_grayscale : M t ndarray :=
  cur <- gets _current ;;
  gray <- cv2.call cur (fun a => cv2.cvtColor a cv2.COLOR_BGR2GRAY) ;;
  ret (cv2.cvtColor gray cv2.COLOR_GRAY2BGR).

Definition apply_blur (intensity : Z) : M t ndarray :=
  let k := Z.max 1 intensity in
  let k := if k mod 2 =? 0 then k + 1 else k in
  cur <- gets _current ;;
  cv2.call cur (fun a => cv2.GaussianBlur a (k, k) 0).

Definition edge_detect (low high : Z) : M t ndarray :=
  cur <- gets _current ;;
  gray <- cv2.call cur (fun a => cv2.cvtColor a cv2.COLOR_BGR2GRAY) ;;
  ret (cv2.cvtColor (cv2.Canny gray low high) cv2.COLOR_GRAY2BGR).

Definition rotate (angle : Z) : M t (option ndarray) :=
  cur <- gets _current ;;
  if angle =? 90 then
    cv2.call_through cur (fun a => cv2.rotate a cv2.ROTATE_90_CLOCKWISE)
  else if angle =? 180 then
    cv2.call_through cur (fun a => cv2.rotate a cv2.ROTATE_180)
  else if angle =? 270 then
    cv2.call_through cur
      (fun a => cv2.rotate a cv2.ROTATE_90_COUNTERCLOCKWISE)
  else ret cur.

Definition flip (mode : string) : M t (option ndarray) :=
  cur <- gets _current ;;
  if String.eqb mode "horizontal" then
    cv2.call_through cur (fun a => cv2.flip a 1)
  else if String.eqb mode "vertical" then
    cv2.call_through cur (fun a => cv2.flip a 0)
  else ret cur.

(** The size handed to [cv2.resize] for an axis of [d] pixels. *)
Definition scaled (d scale_percent : Z) : Z :=
  Z.max 1 (int_truediv (d * scale_percent) 100).

Definition resize_scale (scale_percent : Z) : M t ndarray :=
  cur <- gets _current ;;
  hw <- shape2 cur ;;
  let new_w := scaled (snd hw) scale_percent in
  let new_h := scaled (fst hw) scale_percent in
  cv2.call cur (fun a => cv2.resize a (new_w, new_h) cv2.INTER_AREA).

(** The calls a client can make after [load], and the model they leave
    behind; what a filter returns is dropped. *)
Inductive call : Type :=
| SetCurrent (img_bgr : option ndarray)
| SetFilepath (path : string)
| ResetToOriginal
| ToGrayscale
| ApplyBlur (intensity : Z)
| EdgeDetect (low high : Z)
| AdjustBrightnessContrast (brightness : Z) (contrast : spec_float)
| Rotate (angle : Z)
| Flip (mode : string)
| ResizeScale (scale_percent : Z).

Definition step (m : t) (c : call) : t :=
  match c with
  | SetCurrent x => exec (set_current x) m
  | SetFilepath p => exec (set_filepath p) m
  | ResetToOriginal => exec reset_to_original m
  | ToGrayscale => exec to_grayscale m
  | ApplyBlur i => exec (apply_blur i) m
  | EdgeDetect lo hi => exec (edge_detect lo hi) m
  | AdjustBrightnessContrast b c => exec (adjust_brightness_contrast b c) m
  | Rotate a => exec (rotate a) m
  | Flip f => exec (flip f) m
  | ResizeScale p => exec (resize_scale p) m
  end.

Definition run (cs : list call) (m : t) : t := fold_left step cs m.

End WithCv2.

End ImageModel.

(** ** app.py: the edit-session handlers of [ImageEditorApp]

    Widgets, dialogs and the status bar carry no session state and are left
    out.  What the window shows is kept as [shown], the frames handed to
    [_show_image] in order.  A few lines of the handlers are indented
    irregularly in the file; each is read in the block its neighbours put
    it in. *)

Module App.

Record t : Type := mk {
  model : ImageModel.t;
  history : HistoryManager.t;
  blur_level : Z;
  blur_base : option ndarray;
  brightness_level : Z;
  contrast_level : Z;
  bc_base : option ndarray;
  scale_level : Z;
  scale_base : option ndarray;
  edge_applied : bool;
  shown : list ndarray
}.

(** [ImageEditorApp(root)] *)
Definition init : t :=
  mk ImageModel.init HistoryManager.new 0 None 0 0 None 0 None false [].

Definition set_model (x : ImageModel.t) (s : t) : t :=
  mk x (history s) (blur_level s) (blur_base s) (brightness_level s)
     (contrast_level s) (bc_base s) (scale_level s) (scale_base s)
     (edge_applied s) (shown s).

Definition set_history (x : HistoryManager.t) (s : t) : t :=
  mk (model s) x (blur_level s) (blur_base s) (brightness_level s)
     (contrast_level s) (bc_base s) (scale_level s) (scale_base s)
     (edge_applied s) (shown s).

Definition set_blur_level (x : Z) (s : t) : t :=
  mk (model s) (history s) x (blur_base s) (brightness_level s)
     (contrast_level s) (bc_base s) (scale_level s) (scale_base s)
     (edge_applied s) (shown s).

Definition set_blur_base (x : option ndarray) (s : t) : t :=
  mk (model s) (history s) (blur_level s) x (brightness_level s)
     (contrast_level s) (bc_base s) (scale_level s) (scale_base s)
     (edge_applied s) (shown s).

Definition set_brightness_level (x : Z) (s : t) : t :=
  mk (model s) (history s) (blur_level s) (blur_base s) x
     (contrast_level s) (bc_base s) (scale_level s) (scale_base s)
     (edge_applied s) (shown s).

Definition set_contrast_level (x : Z) (s : t) : t :=
  mk (model s) (history s) (blur_level s) (blur_base s) (brightness_level s)
     x (bc_base s) (scale_level s) (scale_base s)
     (edge_applied s) (shown s).

Definition set_bc_base (x : option ndarray) (s : t) : t :=
  mk (model s) (history s) (blur_level s) (blur_base s) (brightness_level s)
     (contrast_level s) x (scale_level s) (scale_base s)
     (edge_applied s) (shown s).

Definition set_scale_level (x : Z) (s : t) : t :=
  mk (model s) (history s) (blur_level s) (blur_base s) (brightness_level s)
     (contrast_level s) (bc_base s) x (scale_base s)
     (edge_applied s) (shown s).

Definition set_scale_base (x : option ndarray) (s : t) : t :=
  mk (model s) (history s) (blur_level s) (blur_base s) (brightness_level s)
     (contrast_level s) (bc_base s) (scale_level s) x
     (edge_applied s) (shown s).

Definition set_edge_applied (x : bool) (s : t) : t :=
  mk (model s) (history s) (blur_level s) (blur_base s) (brightness_level s)
     (contrast_level s) (bc_base s) (scale_level s) (scale_base s)
     x (shown s).

Definition set_shown (x : list ndarray) (s : t) : t :=
  mk (model s) (history s) (blur_level s) (blur_base s) (brightness_level s)
     (contrast_level s) (bc_base s) (scale_level s) (scale_base s)
     (edge_applied s) x.

(** [self.model.<method>] and [self.history.<method>] *)
Definition in_model {A} (m : M ImageModel.t A) : M t A :=
  zoom model set_model m.

Definition in_history {A} (m : M HistoryManager.t A) : M t A :=
  zoom history set_history m.

Definition has_image (s : t) : bool := ImageModel.has_image (model s).

Definition get_current (s : t) : option ndarray :=
  ImageModel.get_current (model s).

(** Converting [None] for display fails inside OpenCV. *)
Definition _show_image (img_bgr : option ndarray) : M t unit :=
  match img_bgr with
  | None => raise cv2_error
  | Some a => modify (fun s => set_shown (shown s ++ [a]) s)
  end.

Definition _apply_and_show (new_img : option ndarray) : M t unit :=
  cur <- gets get_current ;;
  in_history (HistoryManager.push cur) ;;
  in_model (ImageModel.set_current new_img) ;;
  cur' <- gets get_current ;;
  _show_image cur'.

Definition _reset_blur_state : M t unit :=
  modify (set_blur_level 0) ;;
  modify (set_blur_base None).

Definition _reset_bc_state : M t unit :=
  modify (set_brightness_level 0) ;;
  modify (set_contrast_level 0) ;;
  modify (set_bc_base None).

Definition _reset_scale_state : M t unit :=
  modify (set_scale_level 0) ;;
  modify (set_scale_base None).

Definition _reset_edge_state : M t unit :=
  modify (set_edge_applied false).

Definition _reset_all_tool_states : M t unit :=
  _reset_blur_state ;;
  _reset_bc_state ;;
  _reset_scale_state ;;
  _reset_edge_state.

Definition unless_tool (tool_name this : string) (m : M t unit) : M t unit :=
  if negb (String.eqb tool_name this) then m else ret tt.

Definition _cancel_other_sessions_for (tool_name : string) : M t unit :=
  unless_tool tool_name "blur" _reset_blur_state ;;
  unless_tool tool_name "bc" _reset_bc_state ;;
  unless_tool tool_name "scale" _reset_scale_state ;;
  unless_tool tool_name "edge" _reset_edge_state.

Definition undo_action : M t unit :=
  ok <- gets (fun s => has_image s && HistoryManager.can_undo (history s)) ;;
  if negb ok then ret tt
  else
    cur <- gets get_current ;;
    prev_img <- in_history (HistoryManager.undo cur) ;;
    match prev_img with
    | Some a =>
        in_model (ImageModel.set_current (Some a)) ;;
        _show_image (Some a)
    | None => ret tt
    end ;;
    _reset_all_tool_states.

Definition redo_action : M t unit :=
  ok <- gets (fun s => has_image s && HistoryManager.can_redo (history s)) ;;
  if negb ok then ret tt
  else
    cur <- gets get_current ;;
    next_img <- in_history (HistoryManager.redo cur) ;;
    match next_img with
    | Some a =>
        in_model (ImageModel.set_current (Some a)) ;;
        _show_image (Some a)
    | None => ret tt
    end ;;
    _reset_all_tool_states.

(** The tool state with no live session and the edge guard clear. *)
Definition at_rest (s : t) : Prop :=
  blur_level s = 0 /\ blur_base s = None /\
  brightness_level s = 0 /\ contrast_level s = 0 /\ bc_base s = None /\
  scale_level s = 0 /\ scale_base s = None /\
  edge_applied s = false.

(** While a blur session over [c0] is live, [c0] is on top of the undo
    stack. *)
Definition base_on_top (c0 : ndarray) (s : t) : Prop :=
  1 <= HistoryManager._max_states (history s) /\
  (1 <= blur_level s ->
   exists r, HistoryManager._undo_stack (history s) = r ++ [c0]).

(** The contrast multiplier and brightness offset of the current levels. *)
Definition contrast_of (contrast_level : Z) : spec_float :=
  let contrast :=
    Float64.add (Float64.of_int 1)
                (Float64.mul (Float64.of_int contrast_level)
                             (Float64.lit 8 100)) in
  Float64.max (Float64.lit 2 10) (Float64.min (Float64.of_int 4) contrast).

Definition brightness_of (brightness_level : Z) : Z := brightness_level * 12.

(** One sample through
    [img = bc_base.astype(np.float32)],
    [img = (img - 128.0) * contrast + 128.0 + brightness],
    [img = np.clip(img, 0, 255).astype(np.uint8)]. *)
Definition bc_sample (brightness : Z) (contrast : spec_float) (p : Z) : Z :=
  let img := Float32.of_int p in
  let img :=
    Float32.add
      (Float32.add
         (Float32.mul (Float32.sub img (Float32.of_int 128))
                      (Float32.of_float64 contrast))
         (Float32.of_int 128))
      (Float32.of_int brightness) in
  Float32.to_uint8
    (Float32.clip img (Float32.of_int 0) (Float32.of_int 255)).

Definition bc_image (brightness : Z) (contrast : spec_float) (a : ndarray)
  : ndarray :=
  mk_ndarray (height a) (width a)
             (map (bc_sample brightness contrast) (samples a)).

Definition _apply_brightness_contrast : M t unit :=
  base <- gets bc_base ;;
  match base with
  | None => ret tt
  | Some b =>
      brightness <- gets (fun s => brightness_of (brightness_level s)) ;;
      contrast <- gets (fun s => contrast_of (contrast_level s)) ;;
      in_model
        (ImageModel.set_current (Some (bc_image brightness contrast b)))
  end.

Definition _ensure_bc_session : M t unit :=
  base <- gets bc_base ;;
  match base with
  | None =>
      cur <- gets get_current ;;
      c <- copy_of cur ;;
      modify (set_bc_base (Some c)) ;;
      in_history (HistoryManager.push cur)
  | Some _ => ret tt
  end ;;
  _cancel_other_sessions_for "bc".

Section WithCv2.
Context {cv : cv2.lib}.

Definition apply_grayscale : M t unit :=
  has <- gets has_image ;;
  if negb has then ret tt
  else
    g <- in_model ImageModel.to_grayscale ;;
    _apply_and_show (Some g) ;;
    _reset_all_tool_states.

Definition apply_edges_once : M t unit :=
  has <- gets has_image ;;
  if negb has then ret tt
  else
    guard <- gets edge_applied ;;
    if guard then ret tt
    else
      e <- in_model (ImageModel.edge_detect 50 150) ;;
      _apply_and_show (Some e) ;;
      modify (set_edge_applied true) ;;
      _cancel_other_sessions_for "edge".

(** [cv2.GaussianBlur(self.blur_base, (k, k), 0)] with
    [k = 2 * self.blur_level + 1]. *)
Definition blur_from_base : M t ndarray :=
  k <- gets (fun s => 2 * blur_level s + 1) ;;
  base <- gets blur_base ;;
  cv2.call base (fun b => cv2.GaussianBlur b (k, k) 0).

Definition increase_blur : M t unit :=
  has <- gets has_image ;;
  if negb has then ret tt
  else
    lvl <- gets blur_level ;;
    (if lvl =? 0 then
       cur <- gets get_current ;;
       c <- copy_of cur ;;
       modify (set_blur_base (Some c)) ;;
       in_history (HistoryManager.push cur)
     else ret tt) ;;
    modify (fun s => set_blur_level (blur_level s + 1) s) ;;
    blurred <- blur_from_base ;;
    in_model (ImageModel.set_current (Some blurred)) ;;
    _show_image (Some blurred) ;;
    _cancel_other_sessions_for "blur".

Definition decrease_blur : M t unit :=
  has <- gets has_image ;;
  if negb has then ret tt
  else
    lvl <- gets blur_level ;;
    if lvl =? 0 then ret tt
    else
      modify (fun s => set_blur_level (blur_level s - 1) s) ;;
      lvl' <- gets blur_level ;;
      if lvl' =? 0 then
        base <- gets blur_base ;;
        in_model (ImageModel.set_current base) ;;
        _show_image base ;;
        modify (set_blur_base None)
      else
        blurred <- blur_from_base ;;
        in_model (ImageModel.set_current (Some blurred)) ;;
        _show_image (Some blurred) ;;
        _cancel_other_sessions_for "blur".

(** [open_image], given the path the file dialog returned (empty when
    the dialog was cancelled); the error box of the handler shows the
    message and changes nothing. *)
Definition open_image (path : string) : M t unit :=
  if String.eqb path "" then ret tt
  else
    try_except
      (in_model (ImageModel.load path) ;;
       in_history HistoryManager.clear ;;
       _reset_all_tool_states ;;
       cur <- gets get_current ;;
       _show_image cur)
      (fun e => ret tt).

(** A run of presses on the blur buttons. *)
Inductive blur_press : Type :=
| BlurPlus
| BlurMinus.

Definition press (b : blur_press) : M t unit :=
  match b with
  | BlurPlus => increase_blur
  | BlurMinus => decrease_blur
  end.

Fixpoint presses (bs : list blur_press) : M t unit :=
  match bs with
  | [] => ret tt
  | b :: rest => press b ;; presses rest
  end.

(** The image of blur level [n] over the snapshot [c0]. *)
Definition blur_at (c0 : ndarray) (n : Z) : ndarray :=
  cv2.GaussianBlur c0 (2 * n + 1, 2 * n + 1) 0.

(** A blur session over [c0]: at rest the current image is [c0] and no
    base is held; at level [n >= 1] the base is [c0] and the current
    image is [c0] blurred at level [n]. *)
Definition in_session (c0 : ndarray) (s : t) : Prop :=
  0 <= blur_level s /\
  (blur_level s = 0 ->
   get_current s = Some c0 /\ blur_base s = None) /\
  (1 <= blur_level s ->
   get_current s = Some (blur_at c0 (blur_level s)) /\
   blur_base s = Some c0).

End WithCv2.

(** The blur level a run of presses reaches from level [n]. *)
Definition level_after (bs : list blur_press) (n : Z) : Z :=
  fold_left (fun n b =>
               match b with
               | BlurPlus => n + 1
               | BlurMinus => if n =? 0 then 0 else n - 1
               end) bs n.

End App.

(** ** The specification's formulas

    The two formulas the specification words differently from the code,
    written as the specification words them, over exact rationals. *)

Module Spec.








End Spec.

(** ** A small OpenCV to run the handlers on

    An instance of [cv2.lib] on which the handlers can be evaluated: the
    filters act on samples by simple arithmetic and [resize] repeats the
    first sample.  It stands for no property of OpenCV beyond the shape of
    what [resize] returns. *)

Module ToyCv2.

Definition pointwise (f : Z -> Z) (a : ndarray) : ndarray :=
  mk_ndarray (height a) (width a) (map f (samples a)).

Definition resize (src : ndarray) (dsize : Z * Z)
  (i : cv2.InterpolationFlags) : ndarray :=
  mk_ndarray (snd dsize) (fst dsize)
    (repeat (hd 0 (samples src)) (Z.to_nat (fst dsize * snd dsize))).

Lemma resize_shape (src : ndarray) (w h : Z) (i : cv2.InterpolationFlags) :
  1 <= w -> 1 <= h ->
  width (resize src (w, h) i) = w /\ height (resize src (w, h) i) = h.
Proof. intros _ _. split; reflexivity. Qed.

Definition toy : cv2.lib := {|
  cv2.imread := fun _ => None;
  cv2.cvtColor := fun a _ => a;
  cv2.GaussianBlur := fun a k _ => pointwise (fun p => p / fst k) a;
  cv2.Canny := fun a low high =>
    pointwise (fun p => if p <? low then 0 else 255) a;
  cv2.rotate := fun a _ => mk_ndarray (width a) (height a) (samples a);
  cv2.flip := fun a _ => mk_ndarray (height a) (width a) (rev (samples a));
  cv2.resize := resize;
  cv2.resize_shape := resize_shape
|}.

(** A one-row image of the given samples. *)
Definition row (l : list Z) : ndarray := mk_ndarray 1 (len l) l.


(** The editor with [a] loaded. *)
Definition loaded (a : ndarray) : App.t :=
  App.set_model (ImageModel.mk (Some a) (Some a) None) App.init.

(** The same library with one readable file. *)
Definition with_file (path : string) (img : ndarray) : cv2.lib := {|
  cv2.imread := fun p => if String.eqb p path then Some img else None;
  cv2.cvtColor := fun a _ => a;
  cv2.GaussianBlur := fun a k _ => pointwise (fun p => p / fst k) a;
  cv2.Canny := fun a low high =>
    pointwise (fun p => if p <? low then 0 else 255) a;
  cv2.rotate := fun a _ => mk_ndarray (width a) (height a) (samples a);
  cv2.flip := fun a _ => mk_ndarray (height a) (width a) (rev (samples a));
  cv2.resize := resize;
  cv2.resize_shape := resize_shape
|}.

End ToyCv2.

(** ** Exhaustive checks

    The arithmetic of [bc_sample] is compared with the exact formula by
    evaluating both on every point of a grid of levels and samples. *)

Fixpoint range (lo : Z) (n : nat) : list Z :=
  match n with
  | O => []
  | S k => lo :: range (lo + 1) k
  end.



(** [adjust_brightness_contrast] at contrast [1.0] against the plain sum,
    on every sample and every brightness of a list. *)
Definition shift_close (bs ps : list Z) : bool :=
  forallb (fun b =>
    forallb (fun p =>
      ImageModel.abc_sample b (Float64.of_int 1) p
        =? Z.max 0 (Z.min 255 (p + b))) ps) bs.

(** [_apply_brightness_contrast] at levels (0,0) against the identity. *)
Definition rest_close (ps : list Z) : bool :=
  forallb (fun p =>
    App.bc_sample (App.brightness_of 0) (App.contrast_of 0) p =? p) ps.

(** * Properties *)

(** ** Python lists *)

Lemma list_pop_snoc {A} (l : list A) (x : A) :
  list_pop (l ++ [x]) = Some (x, l).
Proof.
  unfold list_pop. rewrite rev_app_distr. simpl.
  now rewrite rev_involutive.
Qed.

Lemma list_pop_some {A} (l r : list A) (x : A) :
  list_pop l = Some (x, r) -> l = r ++ [x].
Proof.
  unfold list_pop. destruct (rev l) as [|y r'] eqn:E; [discriminate|].
  intros H. injection H as -> <-.
  rewrite <- (rev_involutive l), E. reflexivity.
Qed.

Lemma list_pop_nonempty {A} (l : list A) :
  l <> [] -> exists x r, list_pop l = Some (x, r).
Proof.
  intros H. destruct (list_pop l) as [[x r]|] eqn:E; [eauto|].
  unfold list_pop in E. destruct (rev l) eqn:R; [|discriminate].
  apply (f_equal (@rev A)) in R. rewrite rev_involutive in R. contradiction.
Qed.

Lemma len_snoc {A} (l : list A) (x : A) : len (l ++ [x]) = len l + 1.
Proof. unfold len. rewrite length_app. simpl. lia. Qed.

Lemma len_nonneg {A} (l : list A) : 0 <= len l.
Proof. unfold len. lia. Qed.

Lemma len_pos_nonempty {A} (l : list A) : (len l >? 0) = true -> l <> [].
Proof. destruct l; [discriminate|congruence]. Qed.

(** ** HistoryManager *)

Module HistoryFacts.
Import HistoryManager.

Lemma push_some (a : ndarray) (h : t) :
  push (Some a) h = (Returned tt, pushed a h).
Proof.
  unfold push, pushed, bind, modify, gets, ret, undo_pop0, set_undo,
    set_redo, copy. simpl.
  destruct (len (_undo_stack h ++ [a]) >? _max_states h) eqn:E; simpl.
  - destruct (_undo_stack h ++ [a]) eqn:L; simpl.
    + destruct (_undo_stack h); discriminate.
    + reflexivity.
  - reflexivity.
Qed.

Lemma push_none (h : t) : push None h = (Returned tt, h).
Proof. reflexivity. Qed.

Lemma pushed_top (a : ndarray) (h : t) :
  1 <= _max_states h ->
  exists r, _undo_stack (pushed a h) = r ++ [a].
Proof.
  intros Hmax. unfold pushed. simpl.
  destruct (len (_undo_stack h ++ [a]) >? _max_states h) eqn:E.
  - destruct (_undo_stack h) as [|x l] eqn:L; simpl.
    + simpl in E. unfold len in E. simpl in E. lia.
    + now exists l.
  - now exists (_undo_stack h).
Qed.

Lemma undo_some (c x : ndarray) (r : list ndarray) (h : t) :
  _undo_stack h = r ++ [x] ->
  undo (Some c) h =
    (Returned (Some x), mk r (_redo_stack h ++ [c]) (_max_states h)).
Proof.
  intros E. unfold undo, bind, gets, modify, ret, can_undo, copy_of,
    undo_pop, set_redo, set_undo, copy. cbn -[list_pop len].
  rewrite E, len_snoc.
  replace (len r + 1 >? 0) with true by (pose proof (len_nonneg r); lia).
  cbn -[list_pop len]. now rewrite E, list_pop_snoc.
Qed.

Lemma redo_some (c x : ndarray) (r : list ndarray) (h : t) :
  _redo_stack h = r ++ [x] ->
  redo (Some c) h =
    (Returned (Some x), mk (_undo_stack h ++ [c]) r (_max_states h)).
Proof.
  intros E. unfold redo, bind, gets, modify, ret, can_redo, copy_of,
    redo_pop, set_redo, set_undo, copy. cbn -[list_pop len].
  rewrite E, len_snoc.
  replace (len r + 1 >? 0) with true by (pose proof (len_nonneg r); lia).
  cbn -[list_pop len]. now rewrite E, list_pop_snoc.
Qed.

Lemma exec_clear (h : t) : exec clear h = mk [] [] (_max_states h).
Proof. reflexivity. Qed.

Lemma exec_undo (cur : option ndarray) (h : t) :
  _max_states (exec (undo cur) h) = _max_states h /\
  total (exec (undo cur) h) = total h.
Proof.
  unfold exec, undo, bind, gets. simpl.
  destruct (can_undo h) eqn:C; simpl; [|auto].
  destruct cur as [c|]; simpl; [|auto].
  unfold modify, undo_pop, set_redo, set_undo, ret. simpl.
  destruct (list_pop_nonempty (_undo_stack h) (len_pos_nonempty _ C))
    as (x & r & P).
  rewrite P. simpl. split; [reflexivity|].
  apply list_pop_some in P. unfold total. simpl.
  rewrite P, !len_snoc. unfold copy. lia.
Qed.

Lemma exec_redo (cur : option ndarray) (h : t) :
  _max_states (exec (redo cur) h) = _max_states h /\
  total (exec (redo cur) h) = total h.
Proof.
  unfold exec, redo, bind, gets. simpl.
  destruct (can_redo h) eqn:C; simpl; [|auto].
  destruct cur as [c|]; simpl; [|auto].
  unfold modify, redo_pop, set_redo, set_undo, ret. simpl.
  destruct (list_pop_nonempty (_redo_stack h) (len_pos_nonempty _ C))
    as (x & r & P).
  rewrite P. simpl. split; [reflexivity|].
  apply list_pop_some in P. unfold total. simpl.
  rewrite P, !len_snoc. unfold copy. lia.
Qed.

Lemma total_pushed (a : ndarray) (h : t) :
  len (_undo_stack h) <= _max_states h ->
  total (pushed a h) <= _max_states h.
Proof.
  intros Hmax. unfold total, pushed. cbn -[len].
  rewrite len_snoc.
  destruct (len (_undo_stack h) + 1 >? _max_states h) eqn:E.
  - destruct (_undo_stack h) as [|x l]; cbn -[len].
    + unfold len in *. simpl in *. lia.
    + rewrite len_snoc. unfold len in *. simpl in *. lia.
  - rewrite len_snoc. unfold len at 2. simpl. lia.
Qed.

End HistoryFacts.

Module HistoryInvariant.
Import HistoryManager HistoryFacts.

Lemma bounded_new : bounded new.
Proof. split; [reflexivity|]. unfold total, len. simpl. lia. Qed.

Lemma bounded_step (h : t) (c : call) : bounded h -> bounded (step h c).
Proof.
  intros [Hmax Htot]. destruct c as [|[a|]|cur|cur]; cbn [step].
  - rewrite exec_clear. split; [assumption|].
    unfold total, len. simpl. lia.
  - unfold exec. rewrite push_some. cbn [snd]. split; [assumption|].
    assert (E : _max_states (pushed a h) = _max_states h) by reflexivity.
    pose proof (total_pushed a h) as T.
    unfold total in Htot. pose proof (len_nonneg (_redo_stack h)). lia.
  - unfold exec. rewrite push_none. now split.
  - destruct (exec_undo cur h) as [E1 E2]. split; congruence.
  - destruct (exec_redo cur h) as [E1 E2]. split; congruence.
Qed.

Lemma bounded_run (cs : list call) :
  forall h, bounded h -> bounded (run cs h).
Proof.
  induction cs as [|c cs IH]; intros h H; simpl; [assumption|].
  apply IH, bounded_step, H.
Qed.

End HistoryInvariant.

(** C1.  After [push(pre)], [undo(post)] returns [pre] and leaves [post] on
    the redo stack; [redo(pre)] right after returns [post] and brings the
    manager back to where it was after the push.  Holds for any stacks, as
    long as the manager keeps at least one state. *)
Theorem undo_returns_pre_redo_returns_post
  (h : HistoryManager.t) (pre post : ndarray) :
  1 <= HistoryManager._max_states h ->
  let h1 := exec (HistoryManager.push (Some pre)) h in
  exists h2,
    HistoryManager.undo (Some post) h1 = (Returned (Some pre), h2) /\
    HistoryManager._redo_stack h2 = [post] /\
    HistoryManager.redo (Some pre) h2 = (Returned (Some post), h1).
Proof.
  intros Hmax h1. subst h1. unfold exec.
  rewrite HistoryFacts.push_some. cbn [snd].
  destruct (HistoryFacts.pushed_top pre h Hmax) as [r Hr].
  eexists. split; [apply (HistoryFacts.undo_some post pre r), Hr|].
  split; [reflexivity|].
  rewrite (HistoryFacts.redo_some pre post []) by reflexivity.
  cbn [HistoryManager._undo_stack HistoryManager._max_states].
  f_equal. unfold HistoryManager.pushed in *. cbn in Hr |- *.
  now rewrite Hr.
Qed.

(** C2.  Whatever calls are made on a fresh manager, the undo stack holds
    at most 15 entries; and a push on a full undo stack drops the entry at
    index 0 and keeps the pushed image on top. *)
Theorem undo_stack_at_most_15
  (cs : list HistoryManager.call) (img : ndarray) :
  let h := HistoryManager.run cs HistoryManager.new in
  (List.length (HistoryManager._undo_stack h) <= 15)%nat /\
  (List.length (HistoryManager._undo_stack h) = 15%nat ->
   exists oldest rest,
     HistoryManager._undo_stack h = oldest :: rest /\
     HistoryManager._undo_stack (exec (HistoryManager.push (Some img)) h)
       = rest ++ [img]).
Proof.
  intros h.
  destruct (HistoryInvariant.bounded_run cs _ HistoryInvariant.bounded_new)
    as [Hmax Htot].
  fold h in Hmax, Htot. unfold HistoryManager.total in Htot.
  pose proof (len_nonneg (HistoryManager._redo_stack h)) as Hr.
  split; [unfold len in *; lia|].
  intros Hfull. unfold exec. rewrite HistoryFacts.push_some.
  unfold HistoryManager.pushed. cbn -[len]. rewrite len_snoc, Hmax.
  replace (len (HistoryManager._undo_stack h) + 1 >? 15) with true
    by (unfold len; rewrite Hfull; reflexivity).
  destruct (HistoryManager._undo_stack h) as [|oldest rest];
    [discriminate|].
  now exists oldest, rest.
Qed.

(** ** ImageModel *)

Section ImageModelFacts.
Context {cv : cv2.lib}.




(** C10.  For an angle other than 90, 180 and 270, [rotate] raises
    nothing, changes nothing and returns the current buffer itself. *)
Theorem rotate_other_angle_returns_current (m : ImageModel.t) (angle : Z) :
  angle <> 90 -> angle <> 180 -> angle <> 270 ->
  ImageModel.rotate angle m = (Returned (ImageModel.get_current m), m).
Proof.
  intros H90 H180 H270. unfold ImageModel.rotate, bind, gets.
  apply Z.eqb_neq in H90, H180, H270.
  now rewrite H90, H180, H270.
Qed.

End ImageModelFacts.

(** C8, as the code has it.  [reset_to_original] never raises: with no
    original it returns and leaves the model as it is; with an original it
    makes a copy of it the current image and changes nothing else. *)
Theorem reset_to_original_returns (m : ImageModel.t) :
  ImageModel.reset_to_original m =
    (Returned tt,
     match ImageModel._original m with
     | Some a =>
         ImageModel.mk (ImageModel._original m) (Some a)
                       (ImageModel._filepath m)
     | None => m
     end).
Proof.
  destruct m as [[a|] c f]; reflexivity.
Qed.

(** C8 as stated fails: on a model into which nothing was ever loaded,
    [reset_to_original] returns normally instead of raising. *)
Lemma reset_to_original_without_image_does_not_fail :
  ImageModel._original ImageModel.init = None /\
  ImageModel.reset_to_original ImageModel.init
    = (Returned tt, ImageModel.init) /\
  ~ (exists e s,
       ImageModel.reset_to_original ImageModel.init = (Raised e, s)).
Proof.
  split; [reflexivity|]. split; [reflexivity|].
  intros (e & s & H). discriminate H.
Qed.


(** C10 at a model holding a one-row image, angle 45. *)
Lemma rotate_other_angle_returns_current_witness :
  let a := ToyCv2.row [10; 20; 30] in
  let m := ImageModel.mk (Some a) (Some a) None in
  ImageModel.rotate (cv := ToyCv2.toy) 45 m = (Returned (Some a), m).
Proof.
  intros a m.
  apply (rotate_other_angle_returns_current (cv := ToyCv2.toy) m 45);
    discriminate.
Defined.


(** ** The edit-session handlers *)

(** Symbolic evaluation of a handler on a state given by its fields. *)
Ltac py_unfold :=
  unfold App._apply_and_show, App._ensure_bc_session,
    App._apply_brightness_contrast, App._cancel_other_sessions_for,
    App.unless_tool, App._reset_all_tool_states, App._reset_blur_state,
    App._reset_bc_state, App._reset_scale_state, App._reset_edge_state,
    App._show_image, App.in_history, App.in_model, ImageModel.set_current,
    copy_of, cv2.call, zoom, bind, gets, modify, ret, raise.

Ltac py_cbn :=
  cbn -[HistoryManager.push list_pop len Z.add Z.mul Z.sub Z.eqb
        App.bc_image App.contrast_of App.brightness_of].

Ltac py_eval :=
  py_unfold; py_cbn;
  repeat (rewrite HistoryFacts.push_some; py_cbn).

Ltac app_fields s :=
  destruct s as [[?orig ?cur ?path] ?h ?bl ?bb ?brl ?cl ?bcb ?sl ?sb ?ea ?sh];
  cbn in * |-; subst.

Section AppFacts.
Context {cv : cv2.lib}.



(** C5.  A push of an image always leaves the redo stack empty, and so
    does a committed edit: [_apply_and_show] on a loaded image returns
    with the new image current and nothing left to redo. *)
Theorem edit_clears_redo_stack
  (h : HistoryManager.t) (img : ndarray)
  (s : App.t) (cur new_img : ndarray) :
  (exists h',
     HistoryManager.push (Some img) h = (Returned tt, h') /\
     HistoryManager._redo_stack h' = [] /\
     HistoryManager.can_redo h' = false) /\
  (App.get_current s = Some cur ->
   exists s',
     App._apply_and_show (Some new_img) s = (Returned tt, s') /\
     App.get_current s' = Some new_img /\
     HistoryManager._redo_stack (App.history s') = [] /\
     HistoryManager.can_redo (App.history s') = false).
Proof.
  split.
  - eexists. split; [apply HistoryFacts.push_some|]. now split.
  - intros Hc. app_fields s. py_eval.
    eexists. split; [reflexivity|]. repeat split.
Qed.

(** [_apply_brightness_contrast] never touches the history. *)
Lemma _apply_brightness_contrast_history (s : App.t) :
  App.history (exec App._apply_brightness_contrast s) = App.history s.
Proof.
  destruct s as [m h bl bb brl cl [b|] sl sb ea sh]; reflexivity.
Qed.

(** C6.  With a blur session active and no brightness/contrast session,
    [_ensure_bc_session] puts the blur session to rest and pushes the
    current image exactly once: the history it leaves is the one a single
    [push] gives, one entry longer while below the bound.  Rendering the
    new session pushes nothing more. *)
Theorem bc_session_start_ends_blur_session
  (s : App.t) (cur base : ndarray) :
  App.get_current s = Some cur ->
  1 <= App.blur_level s ->
  App.blur_base s = Some base ->
  App.bc_base s = None ->
  exists s1,
    App._ensure_bc_session s = (Returned tt, s1) /\
    App.blur_level s1 = 0 /\
    App.blur_base s1 = None /\
    App.bc_base s1 = Some cur /\
    App.get_current s1 = Some cur /\
    App.history s1 = exec (HistoryManager.push (Some cur)) (App.history s) /\
    (len (HistoryManager._undo_stack (App.history s))
       < HistoryManager._max_states (App.history s) ->
     HistoryManager._undo_stack (App.history s1)
       = HistoryManager._undo_stack (App.history s) ++ [cur]) /\
    App.history (exec App._apply_brightness_contrast s1) = App.history s1.
Proof.
  intros Hc Hl Hb Hbc.
  assert (exists s1, App._ensure_bc_session s = (Returned tt, s1) /\
    App.blur_level s1 = 0 /\ App.blur_base s1 = None /\
    App.bc_base s1 = Some cur /\ App.get_current s1 = Some cur /\
    App.history s1 = HistoryManager.pushed cur (App.history s))
    as (s1 & R & H1 & H2 & H3 & H4 & H5).
  { app_fields s. py_eval.
    eexists. split; [reflexivity|]. repeat split. }
  exists s1. repeat (split; [assumption|]).
  split; [|split].
  - unfold exec. now rewrite HistoryFacts.push_some.
  - intros Hlt. rewrite H5. unfold HistoryManager.pushed. cbn -[len].
    rewrite len_snoc.
    now replace (len (HistoryManager._undo_stack (App.history s)) + 1
                   >? HistoryManager._max_states (App.history s))
      with false by lia.
  - apply _apply_brightness_contrast_history.
Qed.

End AppFacts.

(** ** The blur session *)

Section BlurFacts.
Context {cv : cv2.lib}.

Lemma increase_blur_in_session (c0 : ndarray) (s : App.t) :
  App.in_session c0 s ->
  exists s',
    App.increase_blur s = (Returned tt, s') /\
    App.in_session c0 s' /\
    App.blur_level s' = App.blur_level s + 1.
Proof.
  intros (H0 & Hz & Hp).
  destruct (Z.eq_dec (App.blur_level s) 0) as [E|E].
  - destruct (Hz E) as [Hc Hb]. clear Hz Hp. app_fields s.
    unfold App.increase_blur, App.blur_from_base. py_eval.
    change (0 =? 0) with true. py_eval.
    eexists. split; [reflexivity|]. split; [|reflexivity].
    unfold App.in_session. py_cbn. repeat split; try lia; discriminate.
  - destruct (Hp ltac:(lia)) as [Hc Hb]. clear Hz Hp. app_fields s.
    unfold App.increase_blur, App.blur_from_base. py_eval.
    replace (bl =? 0) with false by lia. py_eval.
    eexists. split; [reflexivity|]. split; [|reflexivity].
    unfold App.in_session. py_cbn. repeat split; try lia.
Qed.

Lemma decrease_blur_in_session (c0 : ndarray) (s : App.t) :
  App.in_session c0 s ->
  exists s',
    App.decrease_blur s = (Returned tt, s') /\
    App.in_session c0 s' /\
    App.blur_level s' =
      if App.blur_level s =? 0 then 0 else App.blur_level s - 1.
Proof.
  intros (H0 & Hz & Hp).
  destruct (Z.eq_dec (App.blur_level s) 0) as [E|E].
  - destruct (Hz E) as [Hc Hb]. exists s.
    split; [|split; [now split|now rewrite E]].
    clear Hz Hp. app_fields s.
    unfold App.decrease_blur. py_eval.
    change (0 =? 0) with true. reflexivity.
  - destruct (Hp ltac:(lia)) as [Hc Hb]. clear Hz Hp. app_fields s.
    unfold App.decrease_blur, App.blur_from_base. py_eval.
    replace (bl =? 0) with false by lia. py_eval.
    destruct (bl - 1 =? 0) eqn:E1; py_eval.
    + eexists. split; [reflexivity|]. split; [|reflexivity].
      unfold App.in_session. py_cbn. repeat split; try lia.
    + eexists. split; [reflexivity|]. split; [|reflexivity].
      unfold App.in_session. py_cbn. repeat split; try lia.
Qed.

Lemma presses_in_session (c0 : ndarray) (bs : list App.blur_press) :
  forall s,
    App.in_session c0 s ->
    exists s',
      App.presses bs s = (Returned tt, s') /\
      App.in_session c0 s' /\
      App.blur_level s' = App.level_after bs (App.blur_level s).
Proof.
  induction bs as [|b bs IH]; intros s H.
  - exists s. split; [reflexivity|]. split; [assumption|reflexivity].
  - assert (exists s1, App.press b s = (Returned tt, s1) /\
              App.in_session c0 s1 /\
              App.level_after bs (App.blur_level s1) =
                App.level_after (b :: bs) (App.blur_level s))
      as (s1 & R1 & H1 & L1).
    { destruct b; cbn [App.press].
      - destruct (increase_blur_in_session c0 s H) as (s1 & R & I & L).
        exists s1. split; [assumption|]. split; [assumption|].
        unfold App.level_after. cbn [fold_left]. now rewrite L.
      - destruct (decrease_blur_in_session c0 s H) as (s1 & R & I & L).
        exists s1. split; [assumption|]. split; [assumption|].
        unfold App.level_after. cbn [fold_left]. now rewrite L. }
    destruct (IH s1 H1) as (s' & R & I & L).
    exists s'. split; [|split; [assumption|congruence]].
    cbn [App.presses]. unfold bind. now rewrite R1.
Qed.

(** C3.  From a loaded image [c0] with no blur session, any run of
    presses on blur + and - returns, and leaves a current image that
    depends on the level [n] reached only: [c0] itself with the base
    cleared when [n = 0], and [GaussianBlur(c0, (2n+1, 2n+1), 0)] with
    [c0] still the base when [n >= 1]. *)
Theorem blur_depends_on_level_only
  (s : App.t) (c0 : ndarray) (bs : list App.blur_press) :
  App.get_current s = Some c0 ->
  App.blur_level s = 0 ->
  App.blur_base s = None ->
  exists s',
    App.presses bs s = (Returned tt, s') /\
    let n := App.blur_level s' in
    n = App.level_after bs 0 /\
    0 <= n /\
    (n = 0 -> App.get_current s' = Some c0 /\ App.blur_base s' = None) /\
    (1 <= n ->
     App.get_current s' = Some (cv2.GaussianBlur c0 (2 * n + 1, 2 * n + 1) 0)
     /\ App.blur_base s' = Some c0).
Proof.
  intros Hc Hl Hb.
  destruct (presses_in_session c0 bs s) as (s' & R & (I0 & Iz & Ip) & L).
  { unfold App.in_session. rewrite Hl. repeat split; try assumption; lia. }
  exists s'. split; [assumption|]. cbn zeta.
  split; [now rewrite <- Hl|]. split; [assumption|]. now split.
Qed.

End BlurFacts.

(** ** Brightness and contrast *)

Lemma in_range (n : nat) :
  forall lo x, lo <= x < lo + Z.of_nat n -> In x (range lo n).
Proof.
  induction n as [|n IH]; intros lo x H; [lia|].
  cbn [range]. destruct (Z.eq_dec lo x) as [E|E]; [now left|].
  right. apply IH. lia.
Qed.




(** What [_apply_brightness_contrast] commits: the base with every sample
    sent through [bc_sample] at the current levels, shape unchanged. *)
Lemma _apply_brightness_contrast_samples (s : App.t) (b : ndarray) :
  App.bc_base s = Some b ->
  exists s' img,
    App._apply_brightness_contrast s = (Returned tt, s') /\
    App.get_current s' = Some img /\
    height img = height b /\ width img = width b /\
    samples img =
      map (App.bc_sample (App.brightness_of (App.brightness_level s))
                         (App.contrast_of (App.contrast_level s)))
          (samples b).
Proof.
  intros Hb. app_fields s. py_eval.
  eexists. eexists. split; [reflexivity|]. repeat split.
Qed.




(** C7 as stated fails: right after one edge detection the image is
    loaded and the guard is set, and two more calls push nothing and
    change nothing, where the claim has exactly one push and one change
    for every loaded image. *)
Lemma apply_edges_once_twice_with_guard_set_pushes_nothing :
  let s := exec (App.apply_edges_once (cv := ToyCv2.toy))
             (ToyCv2.loaded (ToyCv2.row [10; 60; 200])) in
  let s2 := exec (App.apply_edges_once (cv := ToyCv2.toy))
              (exec (App.apply_edges_once (cv := ToyCv2.toy)) s) in
  App.has_image s = true /\
  App.edge_applied s = true /\
  App.history s2 = App.history s /\
  App.get_current s2 = App.get_current s /\
  App.shown s2 = App.shown s.
Proof. vm_compute. repeat split. Qed.

(** ** The theorems at concrete inputs *)

(** C1 on a fresh manager, with two one-row images. *)
Lemma undo_returns_pre_redo_returns_post_witness :
  let pre := ToyCv2.row [1; 2; 3] in
  let post := ToyCv2.row [4; 5; 6] in
  let h1 := exec (HistoryManager.push (Some pre)) HistoryManager.new in
  exists h2,
    HistoryManager.undo (Some post) h1 = (Returned (Some pre), h2) /\
    HistoryManager._redo_stack h2 = [post] /\
    HistoryManager.redo (Some pre) h2 = (Returned (Some post), h1).
Proof.
  intros pre post.
  apply (undo_returns_pre_redo_returns_post HistoryManager.new pre post).
  simpl. lia.
Defined.

(** C2 after sixteen pushes, an undo and a redo: the stack is full. *)
Lemma undo_stack_at_most_15_witness :
  let a := ToyCv2.row [7] in
  let cs := repeat (HistoryManager.Push (Some a)) 16
            ++ [HistoryManager.Undo (Some a); HistoryManager.Redo (Some a)] in
  let h := HistoryManager.run cs HistoryManager.new in
  List.length (HistoryManager._undo_stack h) = 15%nat /\
  ((List.length (HistoryManager._undo_stack h) <= 15)%nat /\
   (List.length (HistoryManager._undo_stack h) = 15%nat ->
    exists oldest rest,
      HistoryManager._undo_stack h = oldest :: rest /\
      HistoryManager._undo_stack
        (exec (HistoryManager.push (Some (ToyCv2.row [9]))) h)
        = rest ++ [ToyCv2.row [9]])).
Proof.
  intros a cs h. split; [reflexivity|].
  apply (undo_stack_at_most_15 cs (ToyCv2.row [9])).
Defined.

(** C3 on a loaded one-row image: up to level 3, down to 1, up to 2. *)
Lemma blur_depends_on_level_only_witness :
  let c0 := ToyCv2.row [10; 20; 30] in
  let bs := [App.BlurPlus; App.BlurPlus; App.BlurPlus; App.BlurMinus;
             App.BlurMinus; App.BlurPlus] in
  exists s',
    App.presses (cv := ToyCv2.toy) bs (ToyCv2.loaded c0) = (Returned tt, s') /\
    let n := App.blur_level s' in
    n = App.level_after bs 0 /\
    0 <= n /\
    (n = 0 -> App.get_current s' = Some c0 /\ App.blur_base s' = None) /\
    (1 <= n ->
     App.get_current s' =
       Some (cv2.GaussianBlur (lib := ToyCv2.toy) c0 (2 * n + 1, 2 * n + 1) 0)
     /\ App.blur_base s' = Some c0).
Proof.
  intros c0 bs.
  apply (blur_depends_on_level_only (cv := ToyCv2.toy)
           (ToyCv2.loaded c0) c0 bs); reflexivity.
Defined.

(** C5 on a loaded editor after one edit and one undo. *)
Lemma edit_clears_redo_stack_witness :
  let a := ToyCv2.row [10; 20; 30] in
  let b := ToyCv2.row [5; 5; 5] in
  let s := exec App.undo_action
             (exec (App._apply_and_show (Some b)) (ToyCv2.loaded a)) in
  let h := App.history s in
  HistoryManager.can_redo h = true /\
  ((exists h',
      HistoryManager.push (Some b) h = (Returned tt, h') /\
      HistoryManager._redo_stack h' = [] /\
      HistoryManager.can_redo h' = false) /\
   (App.get_current s = Some a ->
    exists s',
      App._apply_and_show (Some b) s = (Returned tt, s') /\
      App.get_current s' = Some b /\
      HistoryManager._redo_stack (App.history s') = [] /\
      HistoryManager.can_redo (App.history s') = false)).
Proof.
  intros a b s h. split; [reflexivity|].
  apply (edit_clears_redo_stack h b s a b).
Defined.

(** C6 on a loaded editor with blur at level 1. *)
Lemma bc_session_start_ends_blur_session_witness :
  let base := ToyCv2.row [10; 20; 30] in
  let cur := ToyCv2.row [3; 6; 10] in
  let s := exec (App.increase_blur (cv := ToyCv2.toy)) (ToyCv2.loaded base) in
  exists s1,
    App._ensure_bc_session s = (Returned tt, s1) /\
    App.blur_level s1 = 0 /\
    App.blur_base s1 = None /\
    App.bc_base s1 = Some cur /\
    App.get_current s1 = Some cur /\
    App.history s1 = exec (HistoryManager.push (Some cur)) (App.history s) /\
    (len (HistoryManager._undo_stack (App.history s))
       < HistoryManager._max_states (App.history s) ->
     HistoryManager._undo_stack (App.history s1)
       = HistoryManager._undo_stack (App.history s) ++ [cur]) /\
    App.history (exec App._apply_brightness_contrast s1) = App.history s1.
Proof.
  intros base cur s.
  apply (bc_session_start_ends_blur_session s cur base).
  - reflexivity.
  - vm_compute. discriminate.
  - reflexivity.
  - reflexivity.
Defined.


(** * Further properties *)

(** ** HistoryManager: navigation *)

Lemma can_undo_snoc (h : HistoryManager.t) :
  HistoryManager.can_undo h = true ->
  exists r x, HistoryManager._undo_stack h = r ++ [x].
Proof.
  intros C.
  destruct (list_pop_nonempty _ (len_pos_nonempty _ C)) as (x & r & P).
  exists r, x. now apply list_pop_some.
Qed.

Lemma can_redo_snoc (h : HistoryManager.t) :
  HistoryManager.can_redo h = true ->
  exists r x, HistoryManager._redo_stack h = r ++ [x].
Proof.
  intros C.
  destruct (list_pop_nonempty _ (len_pos_nonempty _ C)) as (x & r & P).
  exists r, x. now apply list_pop_some.
Qed.

Lemma undo_nothing (h : HistoryManager.t) (cur : option ndarray) :
  HistoryManager.can_undo h = false ->
  HistoryManager.undo cur h = (Returned None, h).
Proof.
  intros C. unfold HistoryManager.undo, bind, gets. now rewrite C.
Qed.

Lemma redo_nothing (h : HistoryManager.t) (cur : option ndarray) :
  HistoryManager.can_redo h = false ->
  HistoryManager.redo cur h = (Returned None, h).
Proof.
  intros C. unfold HistoryManager.redo, bind, gets. now rewrite C.
Qed.

(** X1.  With something to undo, [undo(c)] returns the top [x] of the undo
    stack, and [redo(x)] right after returns [c] and leaves the manager
    exactly as it was before the undo. *)
Theorem undo_then_redo_restores (h : HistoryManager.t) (c : ndarray) :
  HistoryManager.can_undo h = true ->
  exists x h',
    HistoryManager.undo (Some c) h = (Returned (Some x), h') /\
    HistoryManager.redo (Some x) h' = (Returned (Some c), h).
Proof.
  intros C. destruct (can_undo_snoc h C) as (r & x & E).
  exists x. eexists. split; [apply (HistoryFacts.undo_some c x r), E|].
  rewrite (HistoryFacts.redo_some x c (HistoryManager._redo_stack h))
    by reflexivity.
  destruct h as [u rd mx]. cbn in E |- *. now rewrite E.
Qed.

(** X2.  With something to redo, [redo(c)] returns the top [x] of the redo
    stack, and [undo(x)] right after returns [c] and leaves the manager
    exactly as it was before the redo. *)
Theorem redo_then_undo_restores (h : HistoryManager.t) (c : ndarray) :
  HistoryManager.can_redo h = true ->
  exists x h',
    HistoryManager.redo (Some c) h = (Returned (Some x), h') /\
    HistoryManager.undo (Some x) h' = (Returned (Some c), h).
Proof.
  intros C. destruct (can_redo_snoc h C) as (r & x & E).
  exists x. eexists. split; [apply (HistoryFacts.redo_some c x r), E|].
  rewrite (HistoryFacts.undo_some x c (HistoryManager._undo_stack h))
    by reflexivity.
  destruct h as [u rd mx]. cbn in E |- *. now rewrite E.
Qed.

(** X3.  With nothing to undo, [undo] returns [None] and changes nothing,
    whatever it is given, [None] included; likewise [redo] with nothing
    to redo. *)
Theorem nothing_to_undo_or_redo
  (h : HistoryManager.t) (current_img : option ndarray) :
  (HistoryManager.can_undo h = false ->
   HistoryManager.undo current_img h = (Returned None, h)) /\
  (HistoryManager.can_redo h = false ->
   HistoryManager.redo current_img h = (Returned None, h)).
Proof.
  split; [apply undo_nothing|apply redo_nothing].
Qed.

(** X4.  Given [None] while there is something to undo (or redo), [undo]
    (or [redo]) raises [AttributeError] before touching either stack. *)
Theorem undo_redo_of_none_change_nothing (h : HistoryManager.t) :
  (HistoryManager.can_undo h = true ->
   HistoryManager.undo None h = (Raised AttributeError, h)) /\
  (HistoryManager.can_redo h = true ->
   HistoryManager.redo None h = (Raised AttributeError, h)).
Proof.
  split; intros C.
  - unfold HistoryManager.undo, bind, gets. now rewrite C.
  - unfold HistoryManager.redo, bind, gets. now rewrite C.
Qed.

(** X5.  Undo and redo only move along the timeline: the undo stack, the
    image on screen and the reversed redo stack, read in a row, are the
    same list before and after a successful [undo] or [redo]. *)
Theorem undo_redo_keep_timeline
  (h h' : HistoryManager.t) (c x : ndarray) :
  (HistoryManager.undo (Some c) h = (Returned (Some x), h') ->
   HistoryManager.timeline h' x = HistoryManager.timeline h c) /\
  (HistoryManager.redo (Some c) h = (Returned (Some x), h') ->
   HistoryManager.timeline h' x = HistoryManager.timeline h c).
Proof.
  split; intros R.
  - destruct (HistoryManager.can_undo h) eqn:C.
    + destruct (can_undo_snoc h C) as (r & y & E).
      rewrite (HistoryFacts.undo_some c y r h E) in R.
      injection R as -> <-. unfold HistoryManager.timeline. cbn.
      rewrite E, rev_app_distr, <- !app_assoc. reflexivity.
    + rewrite (undo_nothing h (Some c) C) in R. discriminate.
  - destruct (HistoryManager.can_redo h) eqn:C.
    + destruct (can_redo_snoc h C) as (r & y & E).
      rewrite (HistoryFacts.redo_some c y r h E) in R.
      injection R as -> <-. unfold HistoryManager.timeline. cbn.
      rewrite E, rev_app_distr, <- !app_assoc. reflexivity.
    + rewrite (redo_nothing h (Some c) C) in R. discriminate.
Qed.

(** ** HistoryManager: the bound *)

Lemma bounded_by_step (m : Z) (h : HistoryManager.t) (c : HistoryManager.call) :
  0 <= m ->
  HistoryManager.bounded_by m h ->
  HistoryManager.bounded_by m (HistoryManager.step h c).
Proof.
  intros Hm [Hmax Htot].
  destruct c as [|[a|]|cur|cur]; cbn [HistoryManager.step].
  - rewrite HistoryFacts.exec_clear. split; [assumption|].
    unfold HistoryManager.total, len. simpl. lia.
  - unfold exec. rewrite HistoryFacts.push_some. cbn [snd].
    split; [assumption|].
    pose proof (HistoryFacts.total_pushed a h) as T.
    unfold HistoryManager.total in Htot.
    pose proof (len_nonneg (HistoryManager._redo_stack h)).
    assert (E : HistoryManager._max_states (HistoryManager.pushed a h)
                = HistoryManager._max_states h) by reflexivity.
    lia.
  - unfold exec. rewrite HistoryFacts.push_none. now split.
  - destruct (HistoryFacts.exec_undo cur h) as [E1 E2]. split; congruence.
  - destruct (HistoryFacts.exec_redo cur h) as [E1 E2]. split; congruence.
Qed.

(** X6.  A manager built with any bound [m >= 0] never holds more than
    [m] images in its two stacks together, whatever calls are made on it;
    with [m = 0] it never holds any. *)
Theorem stacks_never_exceed_max_states
  (m : Z) (cs : list HistoryManager.call) :
  0 <= m ->
  let h := HistoryManager.run cs (HistoryManager.init m) in
  HistoryManager._max_states h = m /\
  len (HistoryManager._undo_stack h) + len (HistoryManager._redo_stack h) <= m.
Proof.
  intros Hm h. subst h.
  assert (G : forall h, HistoryManager.bounded_by m h ->
                        HistoryManager.bounded_by m (HistoryManager.run cs h)).
  { induction cs as [|c cs IH]; intros h H; cbn; [assumption|].
    apply IH, bounded_by_step; assumption. }
  apply G. split; [reflexivity|].
  unfold HistoryManager.total, len. simpl. lia.
Qed.

Lemma tl_skipn {A} (k : nat) :
  forall l : list A, tl (skipn k l) = skipn (S k) l.
Proof.
  induction k as [|k IH]; intros [|x l]; try reflexivity.
  cbn [skipn]. rewrite IH. now destruct l.
Qed.

Lemma last_n_snoc {A} (n : nat) (l : list A) (a : A) :
  last_n n (l ++ [a]) =
    if len (last_n n l ++ [a]) >? Z.of_nat n
    then tl (last_n n l ++ [a])
    else last_n n l ++ [a].
Proof.
  unfold last_n, len. rewrite !length_app, length_skipn. cbn [List.length].
  assert (K : (List.length l - n <= List.length l)%nat) by lia.
  assert (E : skipn (List.length l - n) l ++ [a]
              = skipn (List.length l - n) (l ++ [a])).
  { rewrite skipn_app.
    replace (List.length l - n - List.length l)%nat with 0%nat by lia.
    reflexivity. }
  rewrite E.
  destruct (Z.gtb_spec
              (Z.of_nat (List.length l - (List.length l - n) + 1))
              (Z.of_nat n)) as [C|C].
  - rewrite tl_skipn. f_equal. lia.
  - f_equal. lia.
Qed.

(** X7.  Pushing a list of images on a fresh manager with bound [n] leaves
    the last [n] of them on the undo stack, oldest first, and an empty
    redo stack: eviction is first in, first out. *)
Theorem pushes_keep_the_last (n : nat) (l : list ndarray) :
  let h := HistoryManager.run
             (map (fun a => HistoryManager.Push (Some a)) l)
             (HistoryManager.init (Z.of_nat n)) in
  HistoryManager._undo_stack h = last_n n l /\
  HistoryManager._redo_stack h = [] /\
  HistoryManager._max_states h = Z.of_nat n.
Proof.
  cbv zeta. induction l as [|a l IH] using rev_ind.
  - repeat split.
  - rewrite map_app. unfold HistoryManager.run in *.
    rewrite fold_left_app. cbn [map fold_left HistoryManager.step].
    destruct IH as (IU & IR & IM).
    unfold exec. rewrite HistoryFacts.push_some. cbn [snd].
    unfold HistoryManager.pushed. cbn -[len].
    rewrite IU, IM. split; [|now split].
    symmetry. apply last_n_snoc.
Qed.

(** ** ImageModel: loading, filters, reset *)

Ltac split_ifs :=
  repeat match goal with
         | |- context [if ?b then _ else _] => destruct b
         end.

Section ImageModelMore.
Context {cv : cv2.lib}.

Lemma to_grayscale_pure (m : ImageModel.t) :
  exec ImageModel.to_grayscale m = m.
Proof. destruct m as [o [a|] f]; reflexivity. Qed.

Lemma apply_blur_pure (i : Z) (m : ImageModel.t) :
  exec (ImageModel.apply_blur i) m = m.
Proof. destruct m as [o [a|] f]; reflexivity. Qed.

Lemma edge_detect_pure (lo hi : Z) (m : ImageModel.t) :
  exec (ImageModel.edge_detect lo hi) m = m.
Proof. destruct m as [o [a|] f]; reflexivity. Qed.

Lemma adjust_brightness_contrast_pure
  (b : Z) (c : spec_float) (m : ImageModel.t) :
  exec (ImageModel.adjust_brightness_contrast b c) m = m.
Proof. destruct m as [o [a|] f]; reflexivity. Qed.

Lemma rotate_pure (angle : Z) (m : ImageModel.t) :
  exec (ImageModel.rotate angle) m = m.
Proof.
  destruct m as [o [a|] f];
    unfold exec, ImageModel.rotate, bind, gets, cv2.call_through, ret;
    cbn -[Z.eqb]; split_ifs; reflexivity.
Qed.

Lemma flip_pure (mode : string) (m : ImageModel.t) :
  exec (ImageModel.flip mode) m = m.
Proof.
  destruct m as [o [a|] f];
    unfold exec, ImageModel.flip, bind, gets, cv2.call_through, ret;
    cbn -[String.eqb]; split_ifs; reflexivity.
Qed.

Lemma resize_scale_pure (p : Z) (m : ImageModel.t) :
  exec (ImageModel.resize_scale p) m = m.
Proof. destruct m as [o [a|] f]; reflexivity. Qed.

(** X8.  No filter changes the model: [to_grayscale], [apply_blur],
    [edge_detect], [adjust_brightness_contrast], [rotate], [flip] and
    [resize_scale] leave original, current image and file path as they
    were, whether they return an image or raise. *)
Theorem filters_leave_the_model_unchanged
  (m : ImageModel.t) (i lo hi b angle p : Z) (c : spec_float)
  (mode : string) :
  exec ImageModel.to_grayscale m = m /\
  exec (ImageModel.apply_blur i) m = m /\
  exec (ImageModel.edge_detect lo hi) m = m /\
  exec (ImageModel.adjust_brightness_contrast b c) m = m /\
  exec (ImageModel.rotate angle) m = m /\
  exec (ImageModel.flip mode) m = m /\
  exec (ImageModel.resize_scale p) m = m.
Proof.
  repeat split.
  - apply to_grayscale_pure.
  - apply apply_blur_pure.
  - apply edge_detect_pure.
  - apply adjust_brightness_contrast_pure.
  - apply rotate_pure.
  - apply flip_pure.
  - apply resize_scale_pure.
Qed.

Lemma load_ok (path : string) (img : ndarray) (m : ImageModel.t) :
  cv2.imread path = Some img ->
  ImageModel.load path m =
    (Returned tt, ImageModel.mk (Some img) (Some img) (Some path)).
Proof. intros E. unfold ImageModel.load. now rewrite E. Qed.

Lemma load_fails (path : string) (m : ImageModel.t) :
  cv2.imread path = None ->
  ImageModel.load path m =
    (Raised (ValueError "Unsupported file or cannot read image."), m).
Proof. intros E. unfold ImageModel.load. now rewrite E. Qed.

(** X9.  [load] of a file OpenCV cannot read raises [ValueError] and
    leaves the model as it was, previous image included; [load] of a
    readable file makes the decoded image both original and current and
    records the path. *)
Theorem load_all_or_nothing
  (path : string) (m : ImageModel.t) :
  (cv2.imread path = None ->
   ImageModel.load path m =
     (Raised (ValueError "Unsupported file or cannot read image."), m)) /\
  (forall img, cv2.imread path = Some img ->
   exists m',
     ImageModel.load path m = (Returned tt, m') /\
     ImageModel._original m' = Some img /\
     ImageModel.get_current m' = Some img /\
     ImageModel.get_filepath m' = Some path /\
     ImageModel.has_image m' = true /\
     ImageModel.get_dimensions m' = Some (width img, height img)).
Proof.
  split; [apply load_fails|].
  intros img E. eexists. split; [apply load_ok, E|]. repeat split.
Qed.

Lemma step_original (m : ImageModel.t) (c : ImageModel.call) :
  ImageModel._original (ImageModel.step m c) = ImageModel._original m.
Proof.
  destruct c; cbn [ImageModel.step].
  - reflexivity.
  - reflexivity.
  - destruct m as [[a|] c f]; reflexivity.
  - now rewrite to_grayscale_pure.
  - now rewrite apply_blur_pure.
  - now rewrite edge_detect_pure.
  - now rewrite adjust_brightness_contrast_pure.
  - now rewrite rotate_pure.
  - now rewrite flip_pure.
  - now rewrite resize_scale_pure.
Qed.

Lemma run_original (cs : list ImageModel.call) :
  forall m, ImageModel._original (ImageModel.run cs m) = ImageModel._original m.
Proof.
  induction cs as [|c cs IH]; intros m; [reflexivity|].
  cbn. unfold ImageModel.run in IH. now rewrite IH, step_original.
Qed.

(** X10.  After a successful [load], whatever is done to the model short
    of another [load] (setting the current image, also to [None]; setting
    the path; resetting; calling filters), [reset_to_original] brings
    back exactly the image that was loaded. *)
Theorem reset_restores_the_loaded_image
  (path : string) (img : ndarray) (m : ImageModel.t)
  (cs : list ImageModel.call) :
  cv2.imread path = Some img ->
  let m1 := ImageModel.run cs (exec (ImageModel.load path) m) in
  exists m2,
    ImageModel.reset_to_original m1 = (Returned tt, m2) /\
    ImageModel.get_current m2 = Some img /\
    ImageModel._original m2 = Some img.
Proof.
  intros E m1. subst m1.
  pose proof (run_original cs (exec (ImageModel.load path) m)) as O.
  unfold exec in O at 2. rewrite (load_ok path img m E) in O. cbn in O.
  destruct (ImageModel.run cs (exec (ImageModel.load path) m))
    as [o c f]. cbn in O. subst o.
  eexists. split; [reflexivity|]. now split.
Qed.

(** X11.  For a mode other than "horizontal" and "vertical", [flip]
    raises nothing, changes nothing and returns the current buffer
    itself. *)
Theorem flip_other_mode_returns_current (m : ImageModel.t) (mode : string) :
  mode <> "horizontal"%string -> mode <> "vertical"%string ->
  ImageModel.flip mode m = (Returned (ImageModel.get_current m), m).
Proof.
  intros Hh Hv. unfold ImageModel.flip, bind, gets.
  apply String.eqb_neq in Hh, Hv. now rewrite Hh, Hv.
Qed.

(** X12.  Whatever intensity [apply_blur] is given (zero, negative or
    even included), the kernel it hands to [GaussianBlur] is square, odd
    and at least 1: the intensity itself if that is odd and positive, the
    next odd number if it is even and positive, and 1 otherwise. *)
Theorem apply_blur_kernel_is_odd
  (m : ImageModel.t) (a : ndarray) (intensity : Z) :
  ImageModel._current m = Some a ->
  exists k,
    ImageModel.apply_blur intensity m
      = (Returned (cv2.GaussianBlur a (k, k) 0), m) /\
    1 <= k /\ k mod 2 = 1 /\
    Z.max 1 intensity <= k <= Z.max 1 intensity + 1 /\
    (1 <= intensity -> intensity mod 2 = 1 -> k = intensity).
Proof.
  intros E. unfold ImageModel.apply_blur, bind, gets, cv2.call, ret.
  rewrite E.
  destruct (Z.eqb_spec (Z.max 1 intensity mod 2) 0) as [Ev|Od];
    eexists; (split; [reflexivity|]).
  - repeat split; try lia.
    + rewrite Z.add_mod, Ev by lia. reflexivity.
    + intros H1 H2. rewrite Z.max_r in Ev by lia. lia.
  - pose proof (Z.mod_pos_bound (Z.max 1 intensity) 2 ltac:(lia)).
    repeat split; try lia.
Qed.


End ImageModelMore.

Lemma shift_close_checked :
  shift_close (range (-100) 201) (range 0 256) = true.
Proof. vm_compute. reflexivity. Qed.

Lemma shift_close_sound (bs ps : list Z) :
  shift_close bs ps = true ->
  forall b p, In b bs -> In p ps ->
    ImageModel.abc_sample b (Float64.of_int 1) p = Z.max 0 (Z.min 255 (p + b)).
Proof.
  unfold shift_close. intros G b p Ib Ip.
  rewrite forallb_forall in G. specialize (G b Ib).
  rewrite forallb_forall in G. specialize (G p Ip).
  now apply Z.eqb_eq.
Qed.

(** X14.  At contrast 1.0 and a brightness of the documented range
    [-100..100], [adjust_brightness_contrast] adds the brightness to every
    8-bit sample and saturates at 0 and 255, exactly; with the default
    arguments (0, 1.0) it returns an equal image. *)
Theorem adjust_brightness_adds_and_saturates
  (m : ImageModel.t) (a : ndarray) (brightness : Z) :
  ImageModel._current m = Some a ->
  Forall (fun p => 0 <= p <= 255) (samples a) ->
  -100 <= brightness <= 100 ->
  ImageModel.adjust_brightness_contrast brightness (Float64.of_int 1) m
    = (Returned
         (mk_ndarray (height a) (width a)
            (map (fun p => Z.max 0 (Z.min 255 (p + brightness))) (samples a))),
       m) /\
  ImageModel.adjust_brightness_contrast 0 (Float64.of_int 1) m
    = (Returned a, m).
Proof.
  intros E Hs Hb.
  assert (G : forall b, -100 <= b <= 100 ->
    map (ImageModel.abc_sample b (Float64.of_int 1)) (samples a)
    = map (fun p => Z.max 0 (Z.min 255 (p + b))) (samples a)).
  { intros b Hb'. apply map_ext_in. intros p Hp.
    rewrite Forall_forall in Hs. specialize (Hs p Hp).
    apply (shift_close_sound _ _ shift_close_checked);
      apply in_range; simpl; lia. }
  unfold ImageModel.adjust_brightness_contrast, bind, gets, ret.
  rewrite E. split.
  - now rewrite (G brightness Hb).
  - rewrite (G 0) by lia. destruct a as [h w l]. cbn. do 2 f_equal.
    f_equal. rewrite <- (map_id l) at 2. apply map_ext_in. intros p Hp.
    rewrite Forall_forall in Hs. specialize (Hs p Hp). cbn in Hs. lia.
Qed.

(** ** The editor: guards and navigation *)

Ltac py_nav :=
  cbn -[HistoryManager.push HistoryManager.undo HistoryManager.redo
        list_pop len Z.add Z.mul Z.sub Z.eqb
        App.bc_image App.contrast_of App.brightness_of].

Ltac py_eval_nav :=
  py_unfold; py_nav.

Lemma can_undo_snoc_true (r : list ndarray) (x : ndarray) (rd : list ndarray)
  (mx : Z) :
  HistoryManager.can_undo (HistoryManager.mk (r ++ [x]) rd mx) = true.
Proof.
  unfold HistoryManager.can_undo. cbn -[len]. rewrite len_snoc.
  pose proof (len_nonneg r). lia.
Qed.

Lemma can_redo_snoc_true (u : list ndarray) (r : list ndarray) (x : ndarray)
  (mx : Z) :
  HistoryManager.can_redo (HistoryManager.mk u (r ++ [x]) mx) = true.
Proof.
  unfold HistoryManager.can_redo. cbn -[len]. rewrite len_snoc.
  pose proof (len_nonneg r). lia.
Qed.

Lemma undo_action_run (s : App.t) (cur x : ndarray) (r : list ndarray) :
  App.get_current s = Some cur ->
  HistoryManager._undo_stack (App.history s) = r ++ [x] ->
  exists s',
    App.undo_action s = (Returned tt, s') /\
    App.get_current s' = Some x /\
    App.history s' =
      HistoryManager.mk r
        (HistoryManager._redo_stack (App.history s) ++ [cur])
        (HistoryManager._max_states (App.history s)) /\
    App.shown s' = App.shown s ++ [x] /\
    ImageModel._original (App.model s') = ImageModel._original (App.model s) /\
    App.at_rest s'.
Proof.
  intros Hc Hu. app_fields s. destruct h as [u rd mx]. cbn in Hu. subst u.
  unfold App.undo_action, App.has_image, ImageModel.has_image,
    App.get_current, ImageModel.get_current. py_eval_nav.
  rewrite can_undo_snoc_true. py_eval_nav.
  rewrite (HistoryFacts.undo_some cur x r) by reflexivity. py_eval_nav.
  eexists. split; [reflexivity|]. unfold App.at_rest. repeat split.
Qed.

Lemma redo_action_run (s : App.t) (cur x : ndarray) (r : list ndarray) :
  App.get_current s = Some cur ->
  HistoryManager._redo_stack (App.history s) = r ++ [x] ->
  exists s',
    App.redo_action s = (Returned tt, s') /\
    App.get_current s' = Some x /\
    App.history s' =
      HistoryManager.mk
        (HistoryManager._undo_stack (App.history s) ++ [cur]) r
        (HistoryManager._max_states (App.history s)) /\
    App.shown s' = App.shown s ++ [x] /\
    ImageModel._original (App.model s') = ImageModel._original (App.model s) /\
    App.at_rest s'.
Proof.
  intros Hc Hu. app_fields s. destruct h as [u rd mx]. cbn in Hu. subst rd.
  unfold App.redo_action, App.has_image, ImageModel.has_image,
    App.get_current, ImageModel.get_current. py_eval_nav.
  rewrite can_redo_snoc_true. py_eval_nav.
  rewrite (HistoryFacts.redo_some cur x r) by reflexivity. py_eval_nav.
  eexists. split; [reflexivity|]. unfold App.at_rest. repeat split.
Qed.

Section EditorFacts.
Context {cv : cv2.lib}.

(** X15.  With no image loaded, the handlers [apply_grayscale],
    [apply_edges_once], [increase_blur], [decrease_blur], [undo_action]
    and [redo_action] return without changing anything. *)
Theorem handlers_do_nothing_without_image (s : App.t) :
  App.has_image s = false ->
  App.apply_grayscale s = (Returned tt, s) /\
  App.apply_edges_once s = (Returned tt, s) /\
  App.increase_blur s = (Returned tt, s) /\
  App.decrease_blur s = (Returned tt, s) /\
  App.undo_action s = (Returned tt, s) /\
  App.redo_action s = (Returned tt, s).
Proof.
  intros H.
  unfold App.apply_grayscale, App.apply_edges_once, App.increase_blur,
    App.decrease_blur, App.undo_action, App.redo_action, bind, gets.
  rewrite H. repeat split.
Qed.

(** X16.  With nothing to undo, [undo_action] returns without changing
    anything, a live session included; likewise [redo_action] with
    nothing to redo. *)
Theorem undo_redo_actions_with_empty_stacks (s : App.t) :
  (HistoryManager.can_undo (App.history s) = false ->
   App.undo_action s = (Returned tt, s)) /\
  (HistoryManager.can_redo (App.history s) = false ->
   App.redo_action s = (Returned tt, s)).
Proof.
  split; intros H.
  - unfold App.undo_action, bind, gets. rewrite H, andb_false_r.
    reflexivity.
  - unfold App.redo_action, bind, gets. rewrite H, andb_false_r.
    reflexivity.
Qed.

Lemma apply_grayscale_run (s : App.t) (cur : ndarray) :
  App.get_current s = Some cur ->
  exists s1,
    App.apply_grayscale s = (Returned tt, s1) /\
    App.get_current s1 =
      Some (cv2.cvtColor (cv2.cvtColor cur cv2.COLOR_BGR2GRAY)
                         cv2.COLOR_GRAY2BGR) /\
    App.history s1 = HistoryManager.pushed cur (App.history s) /\
    App.at_rest s1.
Proof.
  intros Hc. app_fields s.
  unfold App.apply_grayscale, ImageModel.to_grayscale. py_eval.
  eexists. split; [reflexivity|]. unfold App.at_rest. repeat split.
Qed.

(** X17.  A grayscale edit, an undo and a redo: the edit commits the gray
    image and ends every live session, the undo brings back the image as
    it was before the edit, and the redo brings back the gray image and
    the history the edit left. *)
Theorem grayscale_undo_redo (s : App.t) (cur : ndarray) :
  App.get_current s = Some cur ->
  1 <= HistoryManager._max_states (App.history s) ->
  let g := cv2.cvtColor (cv2.cvtColor cur cv2.COLOR_BGR2GRAY)
                        cv2.COLOR_GRAY2BGR in
  exists s1 s2 s3,
    App.apply_grayscale s = (Returned tt, s1) /\
    App.get_current s1 = Some g /\ App.at_rest s1 /\
    App.undo_action s1 = (Returned tt, s2) /\
    App.get_current s2 = Some cur /\ App.at_rest s2 /\
    App.redo_action s2 = (Returned tt, s3) /\
    App.get_current s3 = Some g /\
    App.history s3 = App.history s1.
Proof.
  intros Hc Hmax g. subst g.
  destruct (apply_grayscale_run s cur Hc) as (s1 & R1 & C1 & H1 & A1).
  destruct (HistoryFacts.pushed_top cur (App.history s) Hmax) as [r Hr].
  rewrite <- H1 in Hr.
  destruct (undo_action_run s1 _ cur r C1 Hr) as (s2 & R2 & C2 & H2 & _ & _ & A2).
  assert (Hrd : HistoryManager._redo_stack (App.history s2)
                = [] ++ [cv2.cvtColor (cv2.cvtColor cur cv2.COLOR_BGR2GRAY)
                                       cv2.COLOR_GRAY2BGR]).
  { rewrite H2, H1. reflexivity. }
  destruct (redo_action_run s2 cur _ [] C2 Hrd) as (s3 & R3 & C3 & H3 & _).
  exists s1, s2, s3. repeat (split; [assumption|]).
  rewrite H3, H2.
  cbn [HistoryManager._undo_stack HistoryManager._max_states].
  rewrite <- Hr, H1. reflexivity.
Qed.

Lemma increase_blur_history (c0 : ndarray) (s s' : App.t) :
  App.in_session c0 s ->
  App.increase_blur s = (Returned tt, s') ->
  App.history s' =
    if App.blur_level s =? 0
    then HistoryManager.pushed c0 (App.history s)
    else App.history s.
Proof.
  intros (H0 & Hz & Hp) R.
  destruct (Z.eq_dec (App.blur_level s) 0) as [E|E].
  - destruct (Hz E) as [Hc Hb]. clear Hz Hp. app_fields s.
    unfold App.increase_blur, App.blur_from_base in R. revert R. py_eval.
    change (0 =? 0) with true. py_eval.
    intros R. injection R as <-. reflexivity.
  - destruct (Hp ltac:(lia)) as [Hc Hb]. clear Hz Hp. app_fields s.
    unfold App.increase_blur, App.blur_from_base in R. revert R. py_eval.
    replace (bl =? 0) with false by lia. py_eval.
    intros R. injection R as <-. reflexivity.
Qed.

Lemma decrease_blur_history (c0 : ndarray) (s s' : App.t) :
  App.in_session c0 s ->
  App.decrease_blur s = (Returned tt, s') ->
  App.history s' = App.history s.
Proof.
  intros (H0 & Hz & Hp) R.
  destruct (Z.eq_dec (App.blur_level s) 0) as [E|E].
  - destruct (Hz E) as [Hc Hb]. clear Hz Hp. app_fields s.
    unfold App.decrease_blur in R. revert R. py_eval.
    change (0 =? 0) with true.
    intros R. injection R as <-. reflexivity.
  - destruct (Hp ltac:(lia)) as [Hc Hb]. clear Hz Hp. app_fields s.
    unfold App.decrease_blur, App.blur_from_base in R. revert R. py_eval.
    replace (bl =? 0) with false by lia. py_eval.
    destruct (bl - 1 =? 0) eqn:E1; py_eval;
      intros R; injection R as <-; reflexivity.
Qed.

Lemma press_base_on_top (c0 : ndarray) (b : App.blur_press) (s s' : App.t) :
  App.in_session c0 s -> App.base_on_top c0 s ->
  App.press b s = (Returned tt, s') ->
  App.blur_level s' = App.level_after [b] (App.blur_level s) ->
  App.base_on_top c0 s'.
Proof.
  intros I [Hmax Htop] R L. unfold App.base_on_top.
  destruct b; cbn in R, L.
  - rewrite (increase_blur_history c0 s s' I R).
    destruct (Z.eqb_spec (App.blur_level s) 0) as [E|E].
    + split; [assumption|]. intros _.
      apply HistoryFacts.pushed_top, Hmax.
    + split; [assumption|]. intros _. apply Htop.
      destruct I as (I0 & _). lia.
  - rewrite (decrease_blur_history c0 s s' I R).
    split; [assumption|]. intros H. apply Htop.
    destruct (App.blur_level s =? 0); lia.
Qed.

Lemma presses_base_on_top (c0 : ndarray) (bs : list App.blur_press) :
  forall s,
    App.in_session c0 s -> App.base_on_top c0 s ->
    exists s',
      App.presses bs s = (Returned tt, s') /\
      App.in_session c0 s' /\ App.base_on_top c0 s' /\
      App.blur_level s' = App.level_after bs (App.blur_level s).
Proof.
  induction bs as [|b bs IH]; intros s I B.
  - exists s. repeat (split; [reflexivity || assumption|]). reflexivity.
  - destruct (presses_in_session c0 [b] s I) as (s1 & R1 & I1 & L1).
    cbn [App.presses] in R1. unfold bind, ret in R1.
    destruct (App.press b s) as [[[]|e] s1'] eqn:P; [|discriminate].
    injection R1 as ->.
    pose proof (press_base_on_top c0 b s s1 I B P L1) as B1.
    destruct (IH s1 I1 B1) as (s' & R & I' & B' & L).
    exists s'. split; [|split; [assumption|split; [assumption|]]].
    + cbn [App.presses]. unfold bind. now rewrite P.
    + rewrite L, L1. reflexivity.
Qed.

(** X18.  A whole blur session is one undo step: from a loaded image [c0]
    with no blur session, after any run of presses on blur + and - that
    ends at a level of 1 or more, one [undo_action] brings back [c0]
    exactly and ends the session. *)
Theorem blur_session_is_one_undo_step
  (s : App.t) (c0 : ndarray) (bs : list App.blur_press) :
  App.get_current s = Some c0 ->
  App.blur_level s = 0 ->
  App.blur_base s = None ->
  1 <= HistoryManager._max_states (App.history s) ->
  1 <= App.level_after bs 0 ->
  exists s1 s2,
    App.presses bs s = (Returned tt, s1) /\
    App.undo_action s1 = (Returned tt, s2) /\
    App.get_current s2 = Some c0 /\
    App.at_rest s2.
Proof.
  intros Hc Hl Hb Hmax Hn.
  destruct (presses_base_on_top c0 bs s) as (s1 & R1 & I1 & [_ T1] & L1).
  { unfold App.in_session. rewrite Hl. repeat split; try assumption; lia. }
  { split; [assumption|]. rewrite Hl. lia. }
  rewrite Hl in L1. rewrite <- L1 in Hn.
  destruct (T1 Hn) as [r Hr].
  destruct I1 as (_ & _ & I1). destruct (I1 Hn) as [C1 _].
  destruct (undo_action_run s1 _ c0 r C1 Hr) as (s2 & R2 & C2 & _ & _ & _ & A2).
  now exists s1, s2.
Qed.

Lemma open_image_ok (path : string) (img : ndarray) (s : App.t) :
  path <> ""%string ->
  cv2.imread path = Some img ->
  exists s',
    App.open_image path s = (Returned tt, s') /\
    App.model s' = ImageModel.mk (Some img) (Some img) (Some path) /\
    App.history s' =
      HistoryManager.mk [] [] (HistoryManager._max_states (App.history s)) /\
    App.at_rest s' /\
    App.shown s' = App.shown s ++ [img].
Proof.
  intros Hp E. apply String.eqb_neq in Hp.
  unfold App.open_image. rewrite Hp.
  unfold try_except, App.in_model, zoom, bind at 1.
  rewrite (load_ok path img (App.model s) E).
  destruct s as [m h bl bb brl cl bcb sl sb ea sh].
  py_eval. eexists. split; [reflexivity|].
  unfold App.at_rest. repeat split.
Qed.

(** X19.  Opening a readable file makes the decoded image both original
    and current, shows it, empties both history stacks and ends every
    live session, whatever the editor held before. *)
Theorem open_image_starts_afresh
  (path : string) (img : ndarray) (s : App.t) :
  path <> ""%string ->
  cv2.imread path = Some img ->
  exists s',
    App.open_image path s = (Returned tt, s') /\
    App.get_current s' = Some img /\
    ImageModel._original (App.model s') = Some img /\
    ImageModel.get_filepath (App.model s') = Some path /\
    HistoryManager.can_undo (App.history s') = false /\
    HistoryManager.can_redo (App.history s') = false /\
    App.at_rest s' /\
    App.shown s' = App.shown s ++ [img].
Proof.
  intros Hp E.
  destruct (open_image_ok path img s Hp E) as (s' & R & M & H & A & S).
  exists s'. split; [assumption|].
  unfold App.get_current. rewrite M, H.
  do 5 (split; [reflexivity|]). now split.
Qed.

(** X20.  A cancelled dialog (empty path) or a file OpenCV cannot read
    leaves the editor exactly as it was: image, history, live session and
    display; the [ValueError] of [load] does not escape [open_image]. *)
Theorem open_image_failure_changes_nothing (path : string) (s : App.t) :
  path = ""%string \/ cv2.imread path = None ->
  App.open_image path s = (Returned tt, s).
Proof.
  intros H. unfold App.open_image.
  destruct (String.eqb_spec path "") as [E|E]; [reflexivity|].
  destruct H as [H|H]; [contradiction|].
  unfold try_except, App.in_model, zoom, bind at 1.
  rewrite (load_fails path (App.model s) H).
  destruct s as [m h bl bb brl cl bcb sl sb ea sh]. reflexivity.
Qed.

(** X21.  Starting one tool cancels the others.  On a loaded image,
    [apply_edges_once] (guard clear) ends the blur, brightness/contrast
    and scale sessions and keeps its own guard; [increase_blur] ends the
    brightness/contrast and scale sessions and clears the edge guard, so
    that edge detection applies again afterwards; [_ensure_bc_session]
    ends the blur and scale sessions, clears the edge guard and keeps the
    brightness and contrast levels. *)
Theorem starting_a_tool_cancels_the_others (s : App.t) (cur : ndarray) :
  App.get_current s = Some cur ->
  (App.edge_applied s = false ->
   exists s1,
     App.apply_edges_once s = (Returned tt, s1) /\
     App.blur_level s1 = 0 /\ App.blur_base s1 = None /\
     App.brightness_level s1 = 0 /\ App.contrast_level s1 = 0 /\
     App.bc_base s1 = None /\
     App.scale_level s1 = 0 /\ App.scale_base s1 = None /\
     App.edge_applied s1 = true) /\
  (App.blur_level s = 0 \/ (exists b, App.blur_base s = Some b) ->
   exists s1,
     App.increase_blur s = (Returned tt, s1) /\
     App.blur_level s1 = App.blur_level s + 1 /\
     App.brightness_level s1 = 0 /\ App.contrast_level s1 = 0 /\
     App.bc_base s1 = None /\
     App.scale_level s1 = 0 /\ App.scale_base s1 = None /\
     App.edge_applied s1 = false) /\
  (exists s1,
     App._ensure_bc_session s = (Returned tt, s1) /\
     App.blur_level s1 = 0 /\ App.blur_base s1 = None /\
     App.scale_level s1 = 0 /\ App.scale_base s1 = None /\
     App.edge_applied s1 = false /\
     App.brightness_level s1 = App.brightness_level s /\
     App.contrast_level s1 = App.contrast_level s).
Proof.
  intros Hc. split; [|split].
  - intros Hg. app_fields s.
    unfold App.apply_edges_once, ImageModel.edge_detect. py_eval.
    eexists. split; [reflexivity|]. repeat split.
  - intros Hb. app_fields s.
    unfold App.increase_blur, App.blur_from_base. py_eval.
    destruct (Z.eqb_spec bl 0) as [E|E]; py_eval.
    + eexists. split; [reflexivity|]. repeat split.
    + destruct Hb as [Hb|[b Hb]]; [contradiction|]. cbn in Hb. subst bb.
      py_eval. eexists. split; [reflexivity|]. repeat split.
  - app_fields s. destruct bcb as [b|]; py_eval;
      eexists; (split; [reflexivity|]); repeat split.
Qed.

End EditorFacts.

(** ** Brightness and contrast at rest *)

Lemma rest_close_checked : rest_close (range 0 256) = true.
Proof. vm_compute. reflexivity. Qed.

Lemma rest_close_sound (ps : list Z) :
  rest_close ps = true ->
  forall p, In p ps ->
    App.bc_sample (App.brightness_of 0) (App.contrast_of 0) p = p.
Proof.
  unfold rest_close. intros G p Ip.
  rewrite forallb_forall in G. now apply Z.eqb_eq, G.
Qed.

(** X22.  At levels (0,0) the brightness/contrast rendering changes no
    8-bit sample: [_apply_brightness_contrast] commits an image equal to
    the base of the session. *)
Theorem brightness_contrast_at_rest_is_identity (s : App.t) (b : ndarray) :
  App.bc_base s = Some b ->
  App.brightness_level s = 0 ->
  App.contrast_level s = 0 ->
  Forall (fun p => 0 <= p <= 255) (samples b) ->
  exists s',
    App._apply_brightness_contrast s = (Returned tt, s') /\
    App.get_current s' = Some b.
Proof.
  intros Hb Hbl Hcl Hs. app_fields s. py_eval.
  eexists. split; [reflexivity|]. cbn. f_equal.
  unfold App.bc_image. destruct b as [bh bw l]. cbn in *. f_equal.
  rewrite <- (map_id l) at 2. apply map_ext_in. intros p Hp.
  rewrite Forall_forall in Hs. specialize (Hs p Hp).
  apply (rest_close_sound _ rest_close_checked).
  apply in_range. simpl. lia.
Qed.

(** X23.  The rendering of a brightness/contrast session is computed from
    the base alone: it does not depend on the image that is current when
    [_apply_brightness_contrast] runs, and running it twice gives the
    state that running it once gives. *)
Theorem brightness_contrast_renders_from_base
  (s : App.t) (x : option ndarray) :
  let render := exec App._apply_brightness_contrast in
  (App.bc_base s <> None ->
   App.get_current (render (exec (App.in_model (ImageModel.set_current x)) s))
     = App.get_current (render s)) /\
  render (render s) = render s.
Proof.
  cbv zeta. split.
  - intros Hb. destruct s as [[o c f] h bl bb brl cl [b|] sl sb ea sh];
      [reflexivity|contradiction].
  - destruct s as [[o c f] h bl bb brl cl [b|] sl sb ea sh]; reflexivity.
Qed.

(** ** The further properties at concrete inputs *)

(** X1 on a manager holding two images. *)
Lemma undo_then_redo_restores_witness :
  let h := HistoryManager.mk [ToyCv2.row [1]; ToyCv2.row [2]] [] 15 in
  exists x h',
    HistoryManager.undo (Some (ToyCv2.row [3])) h = (Returned (Some x), h') /\
    HistoryManager.redo (Some x) h' = (Returned (Some (ToyCv2.row [3])), h).
Proof.
  intros h. apply (undo_then_redo_restores h (ToyCv2.row [3])). reflexivity.
Defined.

(** X2 on a manager with one image to redo. *)
Lemma redo_then_undo_restores_witness :
  let h := HistoryManager.mk [ToyCv2.row [1]] [ToyCv2.row [2]] 15 in
  exists x h',
    HistoryManager.redo (Some (ToyCv2.row [3])) h = (Returned (Some x), h') /\
    HistoryManager.undo (Some x) h' = (Returned (Some (ToyCv2.row [3])), h).
Proof.
  intros h. apply (redo_then_undo_restores h (ToyCv2.row [3])). reflexivity.
Defined.

(** X3 on a fresh manager, given [None]. *)
Lemma nothing_to_undo_or_redo_witness :
  HistoryManager.undo None HistoryManager.new
    = (Returned None, HistoryManager.new) /\
  HistoryManager.redo None HistoryManager.new
    = (Returned None, HistoryManager.new).
Proof.
  split.
  - apply (proj1 (nothing_to_undo_or_redo HistoryManager.new None)).
    reflexivity.
  - apply (proj2 (nothing_to_undo_or_redo HistoryManager.new None)).
    reflexivity.
Defined.

(** X4 on a manager with one image on each stack. *)
Lemma undo_redo_of_none_change_nothing_witness :
  let h := HistoryManager.mk [ToyCv2.row [1]] [ToyCv2.row [2]] 15 in
  HistoryManager.undo None h = (Raised AttributeError, h) /\
  HistoryManager.redo None h = (Raised AttributeError, h).
Proof.
  intros h. split.
  - apply (proj1 (undo_redo_of_none_change_nothing h)). reflexivity.
  - apply (proj2 (undo_redo_of_none_change_nothing h)). reflexivity.
Defined.

(** X5 on a manager with one image on each stack: the timeline is
    [1; 3; 2] before and after the undo. *)
Lemma undo_redo_keep_timeline_witness :
  let h := HistoryManager.mk [ToyCv2.row [1]] [ToyCv2.row [2]] 15 in
  let h' := HistoryManager.mk [] [ToyCv2.row [2]; ToyCv2.row [3]] 15 in
  HistoryManager.undo (Some (ToyCv2.row [3])) h
    = (Returned (Some (ToyCv2.row [1])), h') /\
  HistoryManager.timeline h' (ToyCv2.row [1])
    = HistoryManager.timeline h (ToyCv2.row [3]).
Proof.
  intros h h'. split; [reflexivity|].
  apply (proj1 (undo_redo_keep_timeline h h' (ToyCv2.row [3]) (ToyCv2.row [1]))).
  reflexivity.
Defined.

(** X6 with a bound of 2 and three pushes, an undo and a push. *)
Lemma stacks_never_exceed_max_states_witness :
  let a := ToyCv2.row [7] in
  let cs := [HistoryManager.Push (Some a); HistoryManager.Push (Some a);
             HistoryManager.Push (Some a); HistoryManager.Undo (Some a);
             HistoryManager.Push (Some a)] in
  let h := HistoryManager.run cs (HistoryManager.init 2) in
  HistoryManager._max_states h = 2 /\
  len (HistoryManager._undo_stack h) + len (HistoryManager._redo_stack h) <= 2.
Proof.
  intros a cs. apply (stacks_never_exceed_max_states 2 cs). lia.
Defined.

(** X9 with one readable file and one unreadable. *)
Lemma load_all_or_nothing_witness :
  let img := ToyCv2.row [10; 20; 30] in
  let cv := ToyCv2.with_file "a.png" img in
  ImageModel.load (cv := cv) "b.png" ImageModel.init
    = (Raised (ValueError "Unsupported file or cannot read image."),
       ImageModel.init) /\
  exists m',
    ImageModel.load (cv := cv) "a.png" ImageModel.init = (Returned tt, m') /\
    ImageModel._original m' = Some img /\
    ImageModel.get_current m' = Some img /\
    ImageModel.get_filepath m' = Some "a.png"%string /\
    ImageModel.has_image m' = true /\
    ImageModel.get_dimensions m' = Some (width img, height img).
Proof.
  intros img cv. split.
  - apply (proj1 (load_all_or_nothing (cv := cv) "b.png" ImageModel.init)).
    reflexivity.
  - apply (proj2 (load_all_or_nothing (cv := cv) "a.png" ImageModel.init)).
    reflexivity.
Defined.

(** X10 after replacing, clearing and filtering the current image. *)
Lemma reset_restores_the_loaded_image_witness :
  let img := ToyCv2.row [10; 20; 30] in
  let cv := ToyCv2.with_file "a.png" img in
  let cs := [ImageModel.SetCurrent (Some (ToyCv2.row [1]));
             ImageModel.Rotate 90; ImageModel.SetCurrent None;
             ImageModel.ResizeScale 50; ImageModel.SetFilepath "b.png"] in
  let m1 := ImageModel.run (cv := cv) cs
              (exec (ImageModel.load (cv := cv) "a.png") ImageModel.init) in
  exists m2,
    ImageModel.reset_to_original m1 = (Returned tt, m2) /\
    ImageModel.get_current m2 = Some img /\
    ImageModel._original m2 = Some img.
Proof.
  intros img cv cs.
  apply (reset_restores_the_loaded_image (cv := cv) "a.png" img
           ImageModel.init cs).
  reflexivity.
Defined.

(** X11 with the mode "diagonal". *)
Lemma flip_other_mode_returns_current_witness :
  let a := ToyCv2.row [10; 20; 30] in
  let m := ImageModel.mk (Some a) (Some a) None in
  ImageModel.flip (cv := ToyCv2.toy) "diagonal" m = (Returned (Some a), m).
Proof.
  intros a m.
  apply (flip_other_mode_returns_current (cv := ToyCv2.toy) m "diagonal");
    discriminate.
Defined.

(** X12 with intensity 4: the kernel is 5. *)
Lemma apply_blur_kernel_is_odd_witness :
  let a := ToyCv2.row [10; 20; 30] in
  let m := ImageModel.mk (Some a) (Some a) None in
  exists k,
    ImageModel.apply_blur (cv := ToyCv2.toy) 4 m
      = (Returned (cv2.GaussianBlur (lib := ToyCv2.toy) a (k, k) 0), m) /\
    1 <= k /\ k mod 2 = 1 /\
    Z.max 1 4 <= k <= Z.max 1 4 + 1 /\
    (1 <= 4 -> 4 mod 2 = 1 -> k = 4).
Proof.
  intros a m.
  apply (apply_blur_kernel_is_odd (cv := ToyCv2.toy) m a 4). reflexivity.
Defined.


(** X14 with brightness 100 on samples that stay, shift and saturate. *)
Lemma adjust_brightness_adds_and_saturates_witness :
  let a := ToyCv2.row [0; 100; 200; 255] in
  let m := ImageModel.mk (Some a) (Some a) None in
  ImageModel.adjust_brightness_contrast 100 (Float64.of_int 1) m
    = (Returned
         (mk_ndarray (height a) (width a)
            (map (fun p => Z.max 0 (Z.min 255 (p + 100))) (samples a))),
       m) /\
  ImageModel.adjust_brightness_contrast 0 (Float64.of_int 1) m
    = (Returned a, m).
Proof.
  intros a m.
  apply (adjust_brightness_adds_and_saturates m a 100).
  - reflexivity.
  - repeat constructor; simpl; lia.
  - lia.
Defined.

(** X15 on the editor as it starts. *)
Lemma handlers_do_nothing_without_image_witness :
  App.apply_grayscale (cv := ToyCv2.toy) App.init = (Returned tt, App.init) /\
  App.apply_edges_once (cv := ToyCv2.toy) App.init = (Returned tt, App.init) /\
  App.increase_blur (cv := ToyCv2.toy) App.init = (Returned tt, App.init) /\
  App.decrease_blur (cv := ToyCv2.toy) App.init = (Returned tt, App.init) /\
  App.undo_action App.init = (Returned tt, App.init) /\
  App.redo_action App.init = (Returned tt, App.init).
Proof.
  apply (handlers_do_nothing_without_image (cv := ToyCv2.toy) App.init).
  reflexivity.
Defined.

(** X16 on a loaded editor in a blur session, whose redo stack is empty;
    and on a freshly loaded one, whose undo stack is empty. *)
Lemma undo_redo_actions_with_empty_stacks_witness :
  let s0 := ToyCv2.loaded (ToyCv2.row [10; 20; 30]) in
  let s := exec (App.increase_blur (cv := ToyCv2.toy)) s0 in
  App.blur_level s = 1 /\
  App.undo_action s0 = (Returned tt, s0) /\
  App.redo_action s = (Returned tt, s).
Proof.
  intros s0 s. split; [reflexivity|]. split.
  - apply (proj1 (undo_redo_actions_with_empty_stacks s0)). reflexivity.
  - apply (proj2 (undo_redo_actions_with_empty_stacks s)). reflexivity.
Defined.

(** X17 on a loaded one-row image. *)
Lemma grayscale_undo_redo_witness :
  let cur := ToyCv2.row [10; 20; 30] in
  let s := ToyCv2.loaded cur in
  let g := cv2.cvtColor (lib := ToyCv2.toy)
             (cv2.cvtColor (lib := ToyCv2.toy) cur cv2.COLOR_BGR2GRAY)
             cv2.COLOR_GRAY2BGR in
  exists s1 s2 s3,
    App.apply_grayscale (cv := ToyCv2.toy) s = (Returned tt, s1) /\
    App.get_current s1 = Some g /\ App.at_rest s1 /\
    App.undo_action s1 = (Returned tt, s2) /\
    App.get_current s2 = Some cur /\ App.at_rest s2 /\
    App.redo_action s2 = (Returned tt, s3) /\
    App.get_current s3 = Some g /\
    App.history s3 = App.history s1.
Proof.
  intros cur s.
  apply (grayscale_undo_redo (cv := ToyCv2.toy) s cur);
    [reflexivity | simpl; lia].
Defined.

(** X18 on a loaded one-row image: up to level 2, down to 1, then undo. *)
Lemma blur_session_is_one_undo_step_witness :
  let c0 := ToyCv2.row [10; 20; 30] in
  let bs := [App.BlurPlus; App.BlurPlus; App.BlurMinus] in
  exists s1 s2,
    App.presses (cv := ToyCv2.toy) bs (ToyCv2.loaded c0) = (Returned tt, s1) /\
    App.undo_action s1 = (Returned tt, s2) /\
    App.get_current s2 = Some c0 /\
    App.at_rest s2.
Proof.
  intros c0 bs.
  apply (blur_session_is_one_undo_step (cv := ToyCv2.toy)
           (ToyCv2.loaded c0) c0 bs);
    try reflexivity; simpl; lia.
Defined.

(** X19 on an editor in a blur session, opening a readable file. *)
Lemma open_image_starts_afresh_witness :
  let img := ToyCv2.row [1; 2; 3] in
  let cv := ToyCv2.with_file "a.png" img in
  let s := exec (App.increase_blur (cv := cv))
             (ToyCv2.loaded (ToyCv2.row [10; 20; 30])) in
  exists s',
    App.open_image (cv := cv) "a.png" s = (Returned tt, s') /\
    App.get_current s' = Some img /\
    ImageModel._original (App.model s') = Some img /\
    ImageModel.get_filepath (App.model s') = Some "a.png"%string /\
    HistoryManager.can_undo (App.history s') = false /\
    HistoryManager.can_redo (App.history s') = false /\
    App.at_rest s' /\
    App.shown s' = App.shown s ++ [img].
Proof.
  intros img cv s.
  apply (open_image_starts_afresh (cv := cv) "a.png" img s);
    [discriminate | reflexivity].
Defined.

(** X20 on an editor in a blur session, opening an unreadable file. *)
Lemma open_image_failure_changes_nothing_witness :
  let cv := ToyCv2.with_file "a.png" (ToyCv2.row [1; 2; 3]) in
  let s := exec (App.increase_blur (cv := cv))
             (ToyCv2.loaded (ToyCv2.row [10; 20; 30])) in
  App.open_image (cv := cv) "b.png" s = (Returned tt, s).
Proof.
  intros cv s.
  apply (open_image_failure_changes_nothing (cv := cv) "b.png" s).
  right. reflexivity.
Defined.

(** X21 on a freshly loaded one-row image. *)
Lemma starting_a_tool_cancels_the_others_witness :
  let cur := ToyCv2.row [10; 20; 30] in
  let s := ToyCv2.loaded cur in
  (App.edge_applied s = false ->
   exists s1,
     App.apply_edges_once (cv := ToyCv2.toy) s = (Returned tt, s1) /\
     App.blur_level s1 = 0 /\ App.blur_base s1 = None /\
     App.brightness_level s1 = 0 /\ App.contrast_level s1 = 0 /\
     App.bc_base s1 = None /\
     App.scale_level s1 = 0 /\ App.scale_base s1 = None /\
     App.edge_applied s1 = true) /\
  (App.blur_level s = 0 \/ (exists b, App.blur_base s = Some b) ->
   exists s1,
     App.increase_blur (cv := ToyCv2.toy) s = (Returned tt, s1) /\
     App.blur_level s1 = App.blur_level s + 1 /\
     App.brightness_level s1 = 0 /\ App.contrast_level s1 = 0 /\
     App.bc_base s1 = None /\
     App.scale_level s1 = 0 /\ App.scale_base s1 = None /\
     App.edge_applied s1 = false) /\
  (exists s1,
     App._ensure_bc_session s = (Returned tt, s1) /\
     App.blur_level s1 = 0 /\ App.blur_base s1 = None /\
     App.scale_level s1 = 0 /\ App.scale_base s1 = None /\
     App.edge_applied s1 = false /\
     App.brightness_level s1 = App.brightness_level s /\
     App.contrast_level s1 = App.contrast_level s).
Proof.
  intros cur s.
  apply (starting_a_tool_cancels_the_others (cv := ToyCv2.toy) s cur).
  reflexivity.
Defined.

(** X22 on an editor that has just started a brightness/contrast
    session. *)
Lemma brightness_contrast_at_rest_is_identity_witness :
  let b := ToyCv2.row [0; 28; 128; 255] in
  let s := exec App._ensure_bc_session (ToyCv2.loaded b) in
  exists s',
    App._apply_brightness_contrast s = (Returned tt, s') /\
    App.get_current s' = Some b.
Proof.
  intros b s.
  apply (brightness_contrast_at_rest_is_identity s b);
    try reflexivity.
  repeat constructor; simpl; lia.
Defined.

(** X23 on an editor in a brightness/contrast session. *)
Lemma brightness_contrast_renders_from_base_witness :
  let b := ToyCv2.row [0; 28; 128; 255] in
  let s := App.set_contrast_level 5
             (exec App._ensure_bc_session (ToyCv2.loaded b)) in
  let render := exec App._apply_brightness_contrast in
  App.get_current
    (render (exec (App.in_model (ImageModel.set_current None)) s))
    = App.get_current (render s) /\
  render (render s) = render s.
Proof.
  intros b s render. split.
  - apply (proj1 (brightness_contrast_renders_from_base s None)).
    discriminate.
  - apply (proj2 (brightness_contrast_renders_from_base s None)).
Defined.
